(** * esbuild-plugin-typescript: a shallow embedding of the plugin core

    The development follows the TypeScript sources:
    - [outputFile.ts]: classification of the compiler's output names and the
      two-tier content lookup ([findTypescriptOutput], [getEmittedFile]);
    - [index.ts]: the plugin factory [typescript] and its esbuild hooks
      ([onStart], [onLoad], [onEnd], [onDispose]) together with the
      [writeFile] and [status] callbacks handed to the watch compiler;
    - [options/validate.ts]: [validateSourceMap] and [validatePaths];
    - [options/plugin.ts]: [getPluginOptions];
    - the diagnostic conversion [diagnosticToWarning], the stand-alone path
      normaliser and [emitFile].

    JavaScript closures over mutable variables become explicit state passing
    on the record [PluginState].  Collaborators whose code lives elsewhere
    (the disk cache [TSCache], the [WatchProgramHelper], the inclusion filter
    and the TypeScript library) are interfaces: type classes whose methods are
    left abstract. *)

From Stdlib Require Import String Ascii List Bool Arith ZArith Lia.
From Stdlib Require Import DecimalString.
Import ListNotations.
Local Open Scope string_scope.
Local Open Scope list_scope.

(** ** JavaScript strings, truthiness and [Map] *)

Module JS.

(** [name.endsWith(suffix)]: some tail of [name] is [suffix]. *)
Fixpoint endsWith (name suffix : string) : bool :=
  (name =? suffix) ||
  match name with
  | EmptyString => false
  | String _ rest => endsWith rest suffix
  end.

(** [name.replace(/\.d\.ts$/, '.ts')]: the pattern is anchored at the end
    of the input, so at most the final [.d.ts] is rewritten. *)
Fixpoint replace_dts (name : string) : string :=
  if name =? ".d.ts" then ".ts"
  else match name with
       | EmptyString => EmptyString
       | String c rest => String c (replace_dts rest)
       end.

(** [s.split(sep).join(by)] for a one-character separator. *)
Fixpoint replaceAll (sep by_ : ascii) (s : string) : string :=
  match s with
  | EmptyString => EmptyString
  | String c rest =>
      String (if Ascii.eqb c sep then by_ else c) (replaceAll sep by_ rest)
  end.

(** Truthiness of an optional boolean compiler option
    ([boolean | undefined]). *)
Definition truthy (o : option bool) : bool :=
  match o with
  | Some true => true
  | _ => false
  end.

(** Truthiness of a [string | undefined]: the empty string is falsy. *)
Definition truthyString (o : option string) : bool :=
  match o with
  | Some s => negb (s =? "")
  | None => false
  end.

(** [Array.prototype.includes] on strings. *)
Definition includes (l : list string) (x : string) : bool :=
  existsb (String.eqb x) l.

End JS.

(** A JavaScript [Map<string, string>]: keys are unique and iteration follows
    insertion order; [set] on an existing key keeps its position. *)
Module StrMap.

Definition t := list (string * string).

Definition empty : t := [].

Fixpoint get (k : string) (m : t) : option string :=
  match m with
  | [] => None
  | (k', v) :: rest => if k' =? k then Some v else get k rest
  end.

Definition has (k : string) (m : t) : bool :=
  match get k m with
  | Some _ => true
  | None => false
  end.

Fixpoint set (k v : string) (m : t) : t :=
  match m with
  | [] => [(k, v)]
  | (k', v') :: rest =>
      if k' =? k then (k, v) :: rest else (k', v') :: set k v rest
  end.

Definition keys (m : t) : list string := map fst m.

End StrMap.

(** ** Configuration records *)

(** The compiler options the plugin reads or writes. *)
Record CompilerOptions := {
  sourceMap : option bool;
  inlineSources : option bool;
  inlineSourceMap : option bool;
  composite : option bool;
  incremental : option bool;
  declaration : option bool;
  declarationMap : option bool
}.

(** [ParsedCommandLine] as returned by [parseTypescriptConfig]. *)
Record ParsedCommandLine := {
  options : CompilerOptions;
  fileNames : list string;
  autoSetSourceMap : bool
}.

(** The part of esbuild's [BuildOptions] the hooks look at;
    [sourcemap] is kept as its truthiness. *)
Record BuildOptions := {
  sourcemap : bool
}.

(** esbuild's [PartialMessage]. *)
Record PartialMessage := {
  pluginName : string;
  text : string
}.

(** A call made on the plugin context: [context.error] or [context.warn]. *)
Inductive Report :=
| ReportError (message : PartialMessage)
| ReportWarn (message : PartialMessage).

(** Modelled from the spec: the diagnostic handed to the [status] callback,
    reduced to the kinds of watch status the coordinator distinguishes
    (a file-system change, the settled and watching-for-changes statuses,
    and any other code). *)
Inductive Status :=
| FileChangeDetected
| Settled
| WatchingForChanges
| Unrecognized (code : nat).

(** ** Collaborator interfaces *)

(** The disk cache class [TSCache] (tscache.ts): only the two methods the
    plugin calls. *)
Class TSCacheOps (C : Type) := {
  cacheCode : string -> string -> C -> C;
  getCached : string -> C -> option string
}.

(** The [WatchProgramHelper] (watchProgram.ts), seen from the hooks that
    only update it; [wait] is treated with the coordinator below. *)
Class WatchHelperOps (H : Type) := {
  watch : H -> H;
  handleStatus : Status -> H -> H
}.

(** What the factory closes over besides its own state: the inclusion filter
    made by [createFilter], [ts.getOutputFileNames], and the reporting
    helpers of the start hook, each given by the list of context calls it
    makes. *)
Class Host := {
  filter : string -> bool;
  getOutputFileNames : ParsedCommandLine -> string -> list string;
  emitParsedOptionsErrors : ParsedCommandLine -> list Report;
  preflight : ParsedCommandLine -> BuildOptions -> list Report;
  validatePaths : CompilerOptions -> BuildOptions -> list Report
}.

(** ** outputFile.ts *)

(** Checks if the given OutputFile represents some source map. *)
Definition isMapOutputFile (name : string) : bool :=
  JS.endsWith name ".map".

(** Checks if the given OutputFile represents some TypeScript source map. *)
Definition isTypeScriptMapOutputFile (name : string) : bool :=
  JS.endsWith name "ts.map".

(** Checks if the given OutputFile represents some declaration:
    the test [/\.d\.[cm]?ts$/]. *)
Definition isDeclarationOutputFile (name : string) : bool :=
  JS.endsWith name ".d.ts" || JS.endsWith name ".d.cts"
  || JS.endsWith name ".d.mts".

(** Checks if the given OutputFile represents some code. *)
Definition isCodeOutputFile (name : string) : bool :=
  negb (isMapOutputFile name) && negb (isDeclarationOutputFile name).

(** [fileName.split(path.win32.sep).join(path.posix.sep)]: every backslash
    (character 92) becomes a slash. *)
Definition normalizePath (fileName : string) : string :=
  JS.replaceAll "092"%char "/"%char fileName.

Record TypescriptSourceDescription := {
  code : option string;
  map : option string;
  declarations : list string
}.

(** The two [find] calls and the [filter] of [findTypescriptOutput], on the
    list of names alone. *)
Definition codeFile (emittedFileNames : list string) : option string :=
  find isCodeOutputFile emittedFileNames.

Definition mapFile (emittedFileNames : list string) : option string :=
  find isMapOutputFile emittedFileNames.

(** [name !== slot], where [slot] may be [undefined]. *)
Definition differs (name : string) (slot : option string) : bool :=
  match slot with
  | Some s => negb (name =? s)
  | None => true
  end.

Definition declarationFiles (emittedFileNames : list string) : list string :=
  List.filter
    (fun name => differs name (codeFile emittedFileNames)
                 && differs name (mapFile emittedFileNames))
    emittedFileNames.

Section OutputFile.

Context {C : Type} {cacheOps : TSCacheOps C}.

(** Returns the content of a filename either from the current typescript
    compiler instance or from the cached content. *)
Definition getEmittedFile (fileName : option string)
           (emittedFiles : StrMap.t) (tsCache : C) : option string :=
  match fileName with
  | Some f =>
      if JS.truthyString fileName then
        if StrMap.has f emittedFiles then StrMap.get f emittedFiles
        else getCached f tsCache
      else None
  | None => None
  end.

Context {host : Host}.

(** Finds the corresponding emitted Javascript files for a given
    Typescript file. *)
Definition findTypescriptOutput (parsedOptions : ParsedCommandLine)
           (id : string) (emittedFiles : StrMap.t) (tsCache : C)
  : TypescriptSourceDescription :=
  let emittedFileNames := getOutputFileNames parsedOptions id in
  {| code := getEmittedFile (codeFile emittedFileNames) emittedFiles tsCache;
     map := getEmittedFile (mapFile emittedFileNames) emittedFiles tsCache;
     declarations := declarationFiles emittedFileNames |}.

End OutputFile.

(** ** options/validate.ts *)

Definition sourcemapMissingInEsbuild : PartialMessage :=
  {| pluginName := "@libmedia/esbuild-plugin-typescript";
     text := "@libmedia/esbuild-plugin-typescript: esbuild 'sourcemap' option must be set to generate source maps." |}.

Definition sourceMapMissingInTypescript : PartialMessage :=
  {| pluginName := "@libmedia/esbuild-plugin-typescript";
     text := "@libmedia/esbuild-plugin-typescript: Typescript 'sourceMap' compiler option must be set to generate source maps." |}.

(** Validate that the [compilerOptions.sourceMap] option matches
    [outputOptions.sourcemap]; the result is the list of [context.warn]
    calls. *)
Definition validateSourceMap (compilerOptions : CompilerOptions)
           (outputOptions : BuildOptions) (autoSet : bool) : list Report :=
  let tsMaps := JS.truthy (sourceMap compilerOptions)
                || JS.truthy (inlineSourceMap compilerOptions) in
  if tsMaps && negb (sourcemap outputOptions) && negb autoSet then
    [ReportWarn sourcemapMissingInEsbuild]
  else if negb tsMaps && sourcemap outputOptions then
    [ReportWarn sourceMapMissingInTypescript]
  else [].

(** ** index.ts: the plugin factory and its hooks *)

(** A watch-compiler instance as the plugin sees it: an object that can be
    closed.  It shares the [parsedOptions] object with the plugin, so the
    options it runs with are those of the plugin state. *)
Record Watch := {
  closed : bool
}.

(** The variables the hooks close over.  [watchPrograms] is the heap of
    watch-compiler instances returned so far by [createWatchProgram];
    [program] is [null] or a reference into it. *)
Record PluginState (C H : Type) := {
  parsedOptions : ParsedCommandLine;
  emittedFiles : StrMap.t;
  tsCache : C;
  watchProgramHelper : H;
  program : option nat;
  watchPrograms : list Watch;
  errors : list PartialMessage;
  warnings : list PartialMessage
}.

Arguments parsedOptions {C H} _.
Arguments emittedFiles {C H} _.
Arguments tsCache {C H} _.
Arguments watchProgramHelper {C H} _.
Arguments program {C H} _.
Arguments watchPrograms {C H} _.
Arguments errors {C H} _.
Arguments warnings {C H} _.

(** What [onLoad] hands back to esbuild when it owns the file. *)
Record OnLoadResult := {
  contents : string;
  resultErrors : list PartialMessage;
  resultWarnings : list PartialMessage
}.

(** The callbacks esbuild and the watch compiler invoke on the plugin. *)
Inductive Hook :=
| HStart (build : BuildOptions)
| HLoad (path : string)
| HEnd
| HDispose
| HWriteFile (fileName data : string)
| HStatus (diagnostic : Status)
| HReport (r : Report).

Section Plugin.

Context {C H : Type} {cacheOps : TSCacheOps C} {helperOps : WatchHelperOps H}
        {host : Host}.

Local Abbreviation State := (PluginState C H).

Definition withOptions (o : CompilerOptions) (p : ParsedCommandLine) :=
  {| options := o; fileNames := fileNames p;
     autoSetSourceMap := autoSetSourceMap p |}.

Definition withFileNames (l : list string) (p : ParsedCommandLine) :=
  {| options := options p; fileNames := l;
     autoSetSourceMap := autoSetSourceMap p |}.

Definition setParsedOptions (p : ParsedCommandLine) (st : State) : State :=
  {| parsedOptions := p; emittedFiles := emittedFiles st;
     tsCache := tsCache st; watchProgramHelper := watchProgramHelper st;
     program := program st; watchPrograms := watchPrograms st;
     errors := errors st; warnings := warnings st |}.

Definition setStores (m : StrMap.t) (c : C) (st : State) : State :=
  {| parsedOptions := parsedOptions st; emittedFiles := m;
     tsCache := c; watchProgramHelper := watchProgramHelper st;
     program := program st; watchPrograms := watchPrograms st;
     errors := errors st; warnings := warnings st |}.

Definition setHelper (h : H) (st : State) : State :=
  {| parsedOptions := parsedOptions st; emittedFiles := emittedFiles st;
     tsCache := tsCache st; watchProgramHelper := h;
     program := program st; watchPrograms := watchPrograms st;
     errors := errors st; warnings := warnings st |}.

Definition setProgram (p : option nat) (ws : list Watch) (st : State)
  : State :=
  {| parsedOptions := parsedOptions st; emittedFiles := emittedFiles st;
     tsCache := tsCache st; watchProgramHelper := watchProgramHelper st;
     program := p; watchPrograms := ws;
     errors := errors st; warnings := warnings st |}.

Definition setMessages (es ws : list PartialMessage) (st : State) : State :=
  {| parsedOptions := parsedOptions st; emittedFiles := emittedFiles st;
     tsCache := tsCache st; watchProgramHelper := watchProgramHelper st;
     program := program st; watchPrograms := watchPrograms st;
     errors := es; warnings := ws |}.

(** The sourceMap rewrite at the top of the factory. *)
Definition rewriteSourceMap (o : CompilerOptions) : CompilerOptions :=
  if JS.truthy (sourceMap o) then
    {| sourceMap := Some false;
       inlineSources := Some true;
       inlineSourceMap := Some true;
       composite := composite o;
       incremental := incremental o;
       declaration := declaration o;
       declarationMap := declarationMap o |}
  else o.

(** [typescript(options)]: the state the hooks start from, given the
    result of [parseTypescriptConfig], the disk cache as found and a new
    helper. *)
Definition typescript (parsed : ParsedCommandLine) (cache : C) (helper : H)
  : State :=
  let parsed1 := withOptions (rewriteSourceMap (options parsed)) parsed in
  let parsed2 :=
    withFileNames (List.filter filter (fileNames parsed1)) parsed1 in
  {| parsedOptions := parsed2;
     emittedFiles := StrMap.empty;
     tsCache := cache;
     watchProgramHelper := helper;
     program := None;
     watchPrograms := [];
     errors := [];
     warnings := [] |}.

(** [context.error(message)] and [context.warn(message)]. *)
Definition report (r : Report) (st : State) : State :=
  match r with
  | ReportError m => setMessages (errors st ++ [m]) (warnings st) st
  | ReportWarn m => setMessages (errors st) (warnings st ++ [m]) st
  end.

Definition reportAll (rs : list Report) (st : State) : State :=
  fold_left (fun s r => report r s) rs st.

(** The [writeFile] callback given to [createWatchProgram]. *)
Definition writeFile (fileName data : string) (st : State) : State :=
  let cache :=
    if JS.truthy (composite (options (parsedOptions st)))
       || JS.truthy (incremental (options (parsedOptions st)))
    then cacheCode fileName data (tsCache st)
    else tsCache st in
  setStores (StrMap.set fileName data (emittedFiles st)) cache st.

(** The [status] callback given to [createWatchProgram]. *)
Definition status (diagnostic : Status) (st : State) : State :=
  setHelper (handleStatus diagnostic (watchProgramHelper st)) st.

(** Modelled from the spec: [createWatchProgram] (watchProgram.ts is not
    among the sources) constructs a watch-compiler instance bound to the
    parsed configuration, the resolver and the two callbacks.  Here it
    allocates a new, open instance; the plugin keeps the reference in
    [program]. *)
Definition createWatchProgram (st : State) : State :=
  setProgram (Some (length (watchPrograms st)))
             (watchPrograms st ++ [{| closed := false |}]) st.

Definition onStart (build : BuildOptions) (st : State) : State :=
  let st1 := reportAll (emitParsedOptionsErrors (parsedOptions st)) st in
  let st2 := reportAll (preflight (parsedOptions st1) build) st1 in
  let st3 :=
    match program st2 with
    | None => createWatchProgram st2
    | Some _ => setHelper (watch (watchProgramHelper st2)) st2
    end in
  let st4 :=
    reportAll (validateSourceMap (options (parsedOptions st3)) build
                                 (autoSetSourceMap (parsedOptions st3)))
              st3 in
  reportAll (validatePaths (options (parsedOptions st4)) build) st4.

(** [program?.close()]. *)
Fixpoint closeAt (i : nat) (ws : list Watch) : list Watch :=
  match ws, i with
  | [], _ => []
  | _ :: rest, O => {| closed := true |} :: rest
  | w :: rest, S j => w :: closeAt j rest
  end.

Definition onDispose (st : State) : State :=
  match program st with
  | Some i => setProgram (Some i) (closeAt i (watchPrograms st)) st
  | None => st
  end.

(** [onLoad] after [await watchProgramHelper.wait()] has returned: this
    part runs without further suspension. *)
Definition onLoad_resume (path : string) (st : State)
  : option OnLoadResult * State :=
  let fileName := normalizePath path in
  let parsed :=
    if JS.includes (fileNames (parsedOptions st)) fileName
    then parsedOptions st
    else withFileNames (fileNames (parsedOptions st) ++ [fileName])
                       (parsedOptions st) in
  let st1 := setParsedOptions parsed st in
  let output :=
    findTypescriptOutput (parsedOptions st1) path (emittedFiles st1)
                         (tsCache st1) in
  let result :=
    match code output with
    | Some c => Some {| contents := c;
                        resultErrors := errors st1;
                        resultWarnings := warnings st1 |}
    | None => None
    end in
  (result, setMessages [] [] st1).

(** A whole [onLoad] call, seen at the moment it resolves. *)
Definition onLoad (path : string) (st : State)
  : option OnLoadResult * State :=
  if negb (filter path) then (None, st) else onLoad_resume path st.

(** The list the end hook walks:
    [[...emittedFiles.keys()].filter(...)]. *)
Definition declarationAndTypeScriptMapFiles (st : State) : list string :=
  List.filter
    (fun fileName =>
       (isDeclarationOutputFile fileName
        && filter (JS.replace_dts fileName))
       || isTypeScriptMapOutputFile fileName)
    (StrMap.keys (emittedFiles st)).

(** The effect of one callback on the closed-over variables.  The end hook
    only writes to the output directory. *)
Definition hook (h : Hook) (st : State) : State :=
  match h with
  | HStart build => onStart build st
  | HLoad path => snd (onLoad path st)
  | HEnd => st
  | HDispose => onDispose st
  | HWriteFile fileName data => writeFile fileName data st
  | HStatus diagnostic => status diagnostic st
  | HReport r => report r st
  end.

Definition hooks (hs : list Hook) (st : State) : State :=
  fold_left (fun s h => hook h s) hs st.

End Plugin.

(** ** The watch coordinator and suspended loads *)

Inductive CoordinatorState := Idle | Compiling.

(** Modelled from the spec: the [WatchProgramHelper] class (watchProgram.ts
    is not among the sources), following the WatchCoordinator of the design:
    a two-state machine with a FIFO queue of pending wait requests.  A wait
    request is the suspended [onLoad] call, determined by the path it was
    called with; the oldest request is at the head. *)
Record WatchCoordinator := {
  coordinatorState : CoordinatorState;
  pending : list string
}.

Module Coordinator.

Definition create : WatchCoordinator :=
  {| coordinatorState := Idle; pending := [] |}.

(** Modelled from the spec: [markCompiling], the explicit transition used
    when the session wakes an existing compiler instance. *)
Definition markCompiling (c : WatchCoordinator) : WatchCoordinator :=
  {| coordinatorState := Compiling; pending := pending c |}.

(** Modelled from the spec: a file-system change moves to Compiling, the
    settled and watching-for-changes statuses move to Idle and drain the
    queue, unrecognized statuses are ignored.  The second component lists
    the released requests in the order they began waiting. *)
Definition handleStatus (s : Status) (c : WatchCoordinator)
  : WatchCoordinator * list string :=
  match s with
  | FileChangeDetected => (markCompiling c, [])
  | Settled | WatchingForChanges =>
      ({| coordinatorState := Idle; pending := [] |}, pending c)
  | Unrecognized _ => (c, [])
  end.

(** Modelled from the spec: [wait] returns at once when Idle ([true]);
    otherwise the caller is queued until the next transition to Idle. *)
Definition wait (path : string) (c : WatchCoordinator)
  : WatchCoordinator * bool :=
  match coordinatorState c with
  | Idle => (c, true)
  | Compiling =>
      ({| coordinatorState := Compiling; pending := pending c ++ [path] |},
       false)
  end.

End Coordinator.

#[export] Instance coordinatorOps : WatchHelperOps WatchCoordinator := {
  watch := Coordinator.markCompiling;
  handleStatus := fun s c => fst (Coordinator.handleStatus s c)
}.

(** A load request that has resolved, with what it resolved to. *)
Record Resolution := {
  resolvedPath : string;
  result : option OnLoadResult
}.

Section Session.

Context {C : Type} {cacheOps : TSCacheOps C} {host : Host}.

Local Abbreviation Session := (PluginState C WatchCoordinator).

(** The released requests continue one after the other, oldest first, each
    on the state its predecessor left. *)
Fixpoint resumeAll (paths : list string) (st : Session)
  : Session * list Resolution :=
  match paths with
  | [] => (st, [])
  | p :: rest =>
      let (r, st1) := onLoad_resume p st in
      let (st2, rs) := resumeAll rest st1 in
      (st2, {| resolvedPath := p; result := r |} :: rs)
  end.

(** One callback on a session whose loads may suspend in [wait]; the
    second component lists the load requests resolved by this callback. *)
Definition step (h : Hook) (st : Session) : Session * list Resolution :=
  match h with
  | HLoad path =>
      if negb (filter path) then
        (st, [{| resolvedPath := path; result := None |}])
      else
        let (c, ready) := Coordinator.wait path (watchProgramHelper st) in
        if ready then
          let (r, st1) := onLoad_resume path st in
          (st1, [{| resolvedPath := path; result := r |}])
        else (setHelper c st, [])
  | HStatus diagnostic =>
      let (c, released) :=
        Coordinator.handleStatus diagnostic (watchProgramHelper st) in
      resumeAll released (setHelper c st)
  | _ => (hook h st, [])
  end.

Fixpoint run (hs : list Hook) (st : Session) : Session * list Resolution :=
  match hs with
  | [] => (st, [])
  | h :: rest =>
      let (st1, out1) := step h st in
      let (st2, out2) := run rest st1 in
      (st2, out1 ++ out2)
  end.

(** The emitted-files map after the write-output calls among [hs]. *)
Definition emittedAfter (hs : list Hook) (m : StrMap.t) : StrMap.t :=
fold_left
  (fun acc h =>
     match h with
     | HWriteFile fileName data => StrMap.set fileName data acc
     | _ => acc
     end)
  hs m.

(** Modelled from the spec: the callbacks that begin a compile pass, the
    start signal of a build and a file-system change reported by the
    compiler. *)
Definition startsPass (h : Hook) : bool :=
  match h with
  | HStart _ => true
  | HStatus FileChangeDetected => true
  | _ => false
  end.

Definition isCompiling (st : Session) : bool :=
  match coordinatorState (watchProgramHelper st) with
  | Compiling => true
  | Idle => false
  end.

(** The coordinator is Compiling after every callback of [hs]. *)
Fixpoint staysCompiling (hs : list Hook) (st : Session) : bool :=
  match hs with
  | [] => true
  | h :: rest =>
      let st1 := fst (step h st) in
      isCompiling st1 && staysCompiling rest st1
  end.

End Session.

(** ** Stand-ins for running the model on concrete inputs *)

Module Sample.

(** A disk cache kept in memory. *)
Definition cache : TSCacheOps StrMap.t := {|
  cacheCode := StrMap.set;
  getCached := StrMap.get
|}.

(** Drops the last [n] characters. *)
Definition dropEnd (n : nat) (s : string) : string :=
  substring 0 (String.length s - n) s.

(** Output names for a [.ts] input in the compiler's order: code, source
    map, declaration, declaration map. *)
Definition outputNames (p : ParsedCommandLine) (id : string) : list string :=
  let stem := dropEnd 3 id in
  [String.append stem ".js"]
  ++ (if JS.truthy (sourceMap (options p))
      then [String.append stem ".js.map"] else [])
  ++ (if JS.truthy (declaration (options p))
      then [String.append stem ".d.ts"] else [])
  ++ (if JS.truthy (declarationMap (options p))
      then [String.append stem ".d.ts.map"] else []).

(** A host that excludes everything under [vendor/]. *)
Definition host : Host := {|
  filter := fun path => negb (String.prefix "vendor/" path);
  getOutputFileNames := outputNames;
  emitParsedOptionsErrors := fun _ => [];
  preflight := fun _ _ => [];
  validatePaths := fun _ _ => []
|}.

Definition compilerOptions : CompilerOptions :=
  {| sourceMap := None; inlineSources := None; inlineSourceMap := None;
     composite := None; incremental := None;
     declaration := Some true; declarationMap := Some true |}.

Definition parsed : ParsedCommandLine :=
  {| options := compilerOptions; fileNames := ["src/a.ts"];
     autoSetSourceMap := false |}.

Definition typeError : PartialMessage :=
  {| pluginName := "@libmedia/esbuild-plugin-typescript";
     text := "@libmedia/esbuild-plugin-typescript TS2322: Type 'string' is not assignable to type 'number'." |}.

(** A fresh plugin over an empty disk cache. *)
(** The same configuration with [sourceMap] switched on. *)
Definition withSourceMap : ParsedCommandLine :=
  {| options :=
       {| sourceMap := Some true; inlineSources := None;
          inlineSourceMap := None; composite := None; incremental := None;
          declaration := Some true; declarationMap := Some true |};
     fileNames := ["src/a.ts"];
     autoSetSourceMap := false |}.

Definition build : BuildOptions := {| sourcemap := false |}.

(** A fresh plugin over an empty disk cache. *)
Definition fresh : PluginState StrMap.t WatchCoordinator :=
  @typescript _ _ host parsed StrMap.empty Coordinator.create.

(** The plugin after its first build has started and the compiler has
    announced a file change: the coordinator is Compiling. *)
Definition compiling : PluginState StrMap.t WatchCoordinator :=
  fst (@step _ cache host (HStatus FileChangeDetected)
             (fst (@step _ cache host (HStart build) fresh))).

(** A pass in which the compiler reported a type error and emitted
    nothing for [src/a.ts]. *)
Definition failedPass : PluginState StrMap.t WatchCoordinator :=
  @report _ _ (ReportError typeError) fresh.

End Sample.

(** ** Further string operations and the two path normalisers *)

Module JSString.

(** [s.split(sep)] for a one-character separator: the pieces between the
    occurrences of [sep]; there is always at least one piece. *)
Fixpoint split (sep : ascii) (s : string) : list string :=
  match s with
  | EmptyString => [EmptyString]
  | String c rest =>
      if Ascii.eqb c sep then EmptyString :: split sep rest
      else match split sep rest with
           | [] => [String c EmptyString]
           | piece :: pieces => String c piece :: pieces
           end
  end.

(** [pieces.join(by)]. *)
Fixpoint join (by_ : string) (pieces : list string) : string :=
  match pieces with
  | [] => EmptyString
  | [piece] => piece
  | piece :: rest => String.append piece (String.append by_ (join by_ rest))
  end.

(** Whether a character occurs in a string. *)
Fixpoint occurs (c : ascii) (s : string) : bool :=
  match s with
  | EmptyString => false
  | String x rest => Ascii.eqb x c || occurs c rest
  end.

(** The last character, if any. *)
Fixpoint last (s : string) : option ascii :=
  match s with
  | EmptyString => None
  | String c EmptyString => Some c
  | String _ rest => last rest
  end.

(** The string without its first [n] characters. *)
Fixpoint drop (n : nat) (s : string) : string :=
  match n, s with
  | O, _ => s
  | S _, EmptyString => EmptyString
  | S m, String _ rest => drop m rest
  end.

(** [s.indexOf(pattern)]: the first position of [pattern], or [-1]. *)
Definition indexOf (s pattern : string) : Z :=
  match String.index 0 pattern s with
  | Some i => Z.of_nat i
  | None => (-1)%Z
  end.

(** [s.slice(start)]: a negative [start] counts from the end. *)
Definition slice (s : string) (start : Z) : string :=
  if (start <? 0)%Z
  then drop (Z.to_nat (Z.max (Z.of_nat (String.length s) + start) 0)) s
  else drop (Z.to_nat start) s.

(** [s.startsWith(p)]. *)
Definition startsWith (s p : string) : bool := String.prefix p s.

End JSString.

Module NormalizePath.

(** outputFile.ts, as written:
    [fileName.split(path.win32.sep).join(path.posix.sep)]. *)
Definition viaSplitJoin (fileName : string) : string :=
  JSString.join "/" (JSString.split "092"%char fileName).

(** The default export of the stand-alone normaliser:
    [filename.replace(normalizePathRegExp, posix.sep)], where the pattern is
    the global expression matching one backslash. *)
Definition viaRegExp (filename : string) : string :=
  JS.replaceAll "092"%char "/"%char filename.

End NormalizePath.

(** ** Reading a run of callbacks *)

(** The messages a list of context calls adds to [errors] and to
    [warnings], in call order. *)
Definition errorsOf (rs : list Report) : list PartialMessage :=
  flat_map (fun r => match r with
                     | ReportError m => [m]
                     | ReportWarn _ => []
                     end) rs.

Definition warningsOf (rs : list Report) : list PartialMessage :=
  flat_map (fun r => match r with
                     | ReportError _ => []
                     | ReportWarn m => [m]
                     end) rs.

(** The data of the last [writeFile] call for [fileName] among [hs]. *)
Fixpoint lastWrite (fileName : string) (hs : list Hook) : option string :=
  match hs with
  | [] => None
  | h :: rest =>
      match lastWrite fileName rest with
      | Some data => Some data
      | None =>
          match h with
          | HWriteFile f data => if f =? fileName then Some data else None
          | _ => None
          end
      end
  end.

(** Whether every load among [hs] is for a path the filter rejects. *)
Definition onlyExcludedLoads {host : Host} (hs : list Hook) : bool :=
  forallb (fun h => match h with
                    | HLoad path => negb (filter path)
                    | _ => true
                    end) hs.

(** ** options/plugin.ts and the path checks of options/validate.ts *)

Module Options.

Local Unset Elimination Schemes.

(** The values held by an options object.  [VOther] stands for any other
    object (an array, a function, a module), which is always truthy. *)
Inductive Value :=
| VUndefined
| VBool (b : bool)
| VString (s : string)
| VObject (fields : list (string * Value))
| VOther (id : nat).

Local Set Elimination Schemes.

(** An object: its own enumerable properties in order. *)
Definition Obj := list (string * Value).

Definition keys (o : Obj) : list string := List.map fst o.

Fixpoint get (k : string) (o : Obj) : option Value :=
  match o with
  | [] => None
  | (k', v) :: rest => if k' =? k then Some v else get k rest
  end.

(** [o.k] or [o[k]]: [undefined] when the property is missing. *)
Definition prop (k : string) (o : Obj) : Value :=
  match get k o with
  | Some v => v
  | None => VUndefined
  end.

Fixpoint set (k : string) (v : Value) (o : Obj) : Obj :=
  match o with
  | [] => [(k, v)]
  | (k', v') :: rest =>
      if k' =? k then (k, v) :: rest else (k', v') :: set k v rest
  end.

Definition truthy (v : Value) : bool :=
  match v with
  | VUndefined => false
  | VBool b => b
  | VString s => negb (s =? "")
  | VObject _ => true
  | VOther _ => true
  end.

(** [a || b]. *)
Definition or_ (a b : Value) : Value := if truthy a then a else b.

(** The properties copied by [...v] in an object literal; the plugin spreads
    objects and [undefined] only. *)
Definition ownProps (v : Value) : Obj :=
  match v with
  | VObject fields => fields
  | _ => []
  end.

(** Copies the properties of [source] onto [target], in order. *)
Definition assign (target source : Obj) : Obj :=
  fold_left (fun acc kv => set (fst kv) (snd kv) acc) source target.

(** The object literal [{ ...a, ...b }]. *)
Definition spread2 (a b : Obj) : Obj := assign (assign [] a) b.

(** The names bound by the destructuring pattern of [getPluginOptions]. *)
Definition pluginKeys : list string :=
  ["cacheDir"; "exclude"; "include"; "filterRoot"; "noForceEmit";
   "transformers"; "tsconfig"; "tslib"; "typescript"; "compilerOptions"].

(** The rest element [...extra]: every property not bound by name. *)
Definition restOf (names : list string) (o : Obj) : Obj :=
  List.filter (fun kv => negb (JS.includes names (fst kv))) o.

Record PluginOptions := {
  cacheDir : Value;
  include : Value;
  exclude : Value;
  filterRoot : Value;
  noForceEmit : Value;
  tsconfig : Value;
  compilerOptions : Obj;
  typescript : Value;
  tslib : Value;
  transformers : Value
}.

(** Separate the esbuild plugin options from the Typescript compiler
    options, and normalize the esbuild options.  [defaultTs] is the imported
    [typescript] module and [tsLibPath] the value of [getTsLibPath()]. *)
Definition getPluginOptions (defaultTs tsLibPath : Value) (options : Obj)
  : PluginOptions :=
  let extra := restOf pluginKeys options in
  {| cacheDir := prop "cacheDir" options;
     include := prop "include" options;
     exclude := prop "exclude" options;
     filterRoot := prop "filterRoot" options;
     noForceEmit := or_ (prop "noForceEmit" options) (VBool false);
     tsconfig := prop "tsconfig" options;
     compilerOptions :=
       spread2 extra (ownProps (prop "compilerOptions" options));
     typescript := or_ (prop "typescript" options) defaultTs;
     tslib := or_ (prop "tslib" options) tsLibPath;
     transformers := prop "transformers" options |}.

(** The part of esbuild's output options that [validatePaths] reads. *)
Record OutputOptions := {
  outdir : option string;
  outfile : option string
}.

(** Node's [path] module, as far as the plugin calls it. *)
Class NodePath := {
  relative : string -> string -> string;
  dirname : string -> string;
  basename : string -> string;
  resolve : string -> string -> string;
  pathJoin : string -> string -> string
}.

Definition deprecatedOut : PartialMessage :=
  {| pluginName := "@libmedia/esbuild-plugin-typescript";
     text := "@libmedia/esbuild-plugin-typescript: Deprecated Typescript compiler option 'out' is not supported. Use 'outDir' instead." |}.

Definition unsupportedOutFile : PartialMessage :=
  {| pluginName := "@libmedia/esbuild-plugin-typescript";
     text := "@libmedia/esbuild-plugin-typescript: Typescript compiler option 'outFile' is not supported. Use 'outDir' instead." |}.

Definition notInsideDir (dirProperty : string) : PartialMessage :=
  {| pluginName := "@libmedia/esbuild-plugin-typescript";
     text := String.append
               "@libmedia/esbuild-plugin-typescript: Path of Typescript compiler option '"
               (String.append dirProperty
                  "' must be located inside Rollup 'dir' option.") |}.

Definition notBesideFile (dirProperty : string) : PartialMessage :=
  {| pluginName := "@libmedia/esbuild-plugin-typescript";
     text := String.append
               "@libmedia/esbuild-plugin-typescript: Path of Typescript compiler option '"
               (String.append dirProperty
                  "' must be located inside the same directory as the Rollup 'file' option.") |}.

Definition declarationNeedsDir : PartialMessage :=
  {| pluginName := "@libmedia/esbuild-plugin-typescript";
     text := "@libmedia/esbuild-plugin-typescript: You are using one of Typescript's compiler options 'declaration', 'declarationMap' or 'composite'. In this case 'outDir' or 'declarationDir' must be specified to generate declaration files." |}.

(** A directory option read as the string it is typed to be. *)
Definition asString (v : Value) : string :=
  match v with
  | VString s => s
  | _ => ""
  end.

Section ValidatePaths.

Context {nodePath : NodePath}.

(** The table [DIRECTORY_PROPS] of options/normalize.ts, which is not among
    the sources. *)
Variable DIRECTORY_PROPS : list string.

(** The first statement of [validatePaths]: the two unsupported options. *)
Definition unsupportedOutputs (compilerOptions : Obj) : list PartialMessage :=
  if truthy (prop "out" compilerOptions) then [deprecatedOut]
  else if truthy (prop "outFile" compilerOptions) then [unsupportedOutFile]
  else [].

(** [outputOptions.outdir], replaced by the directory of
    [outputOptions.outfile] when that is set. *)
Definition outputDirOf (outputOptions : OutputOptions) : option string :=
  if JS.truthyString (outfile outputOptions)
  then match outfile outputOptions with
       | Some f => Some (dirname f)
       | None => None
       end
  else outdir outputOptions.

(** The body of the loop over [DIRECTORY_PROPS]. *)
Definition checkDirectory (compilerOptions : Obj)
           (outputOptions : OutputOptions) (dirProperty : string)
  : list PartialMessage :=
  match outputDirOf outputOptions with
  | Some outputDir =>
      if truthy (prop dirProperty compilerOptions)
         && JS.truthyString (Some outputDir)
      then
        let dir := asString (prop dirProperty compilerOptions) in
        if JS.truthyString (outdir outputOptions) then
          if String.prefix ".." (relative outputDir dir)
          then [notInsideDir dirProperty] else []
        else if dirProperty =? "outDir" then
          if String.prefix ".." (relative dir outputDir)
          then [notBesideFile dirProperty] else []
        else
          if String.prefix ".." (relative outputDir dir)
          then [notBesideFile dirProperty] else []
      else []
  | None => []
  end.

(** The last statement of [validatePaths]. *)
Definition declarationsWithoutDir (compilerOptions : Obj)
  : list PartialMessage :=
  if truthy (prop "declaration" compilerOptions)
     || truthy (prop "declarationMap" compilerOptions)
     || truthy (prop "composite" compilerOptions)
  then
    if forallb (fun dirProperty =>
                  negb (truthy (prop dirProperty compilerOptions)))
               DIRECTORY_PROPS
    then [declarationNeedsDir] else []
  else [].

(** Validate that the out directory used by Typescript can be controlled
    by esbuild; the result lists the [context.error] calls in order. *)
Definition validatePaths (compilerOptions : Obj)
           (outputOptions : OutputOptions) : list PartialMessage :=
  unsupportedOutputs compilerOptions
  ++ flat_map (checkDirectory compilerOptions outputOptions) DIRECTORY_PROPS
  ++ declarationsWithoutDir compilerOptions.

End ValidatePaths.

End Options.

(** ** diagnostics/toWarning: from a compiler diagnostic to an esbuild message *)

Module Diagnostics.

Record SourceFile := {
  fileName : string;
  (** [(line, character)], both counted from zero. *)
  getLineAndCharacterOfPosition : nat -> nat * nat
}.

Record Diagnostic := {
  code : nat;
  file : option SourceFile;
  start : nat
}.

Record FormatDiagnosticsHost := {
  getNewLine : string
}.

(** The two functions of the TypeScript library the conversion calls. *)
Class TypescriptApi := {
  flattenDiagnosticMessageText : Diagnostic -> string;
  formatDiagnosticsWithColorAndContext :
    Diagnostic -> FormatDiagnosticsHost -> string
}.

Record Location := {
  column : nat;
  line : nat;
  locationFile : string
}.

Record Warning := {
  pluginName : string;
  text : string;
  location : option Location;
  detail : option string
}.

(** The code frame: what follows the first occurrence of the message in the
    formatted diagnostic, without one leading newline. *)
Definition codeFrame (formatted message newLine : string) : string :=
  let frame :=
    JSString.slice formatted
      (JSString.indexOf formatted message
       + Z.of_nat (String.length message))%Z in
  if JSString.startsWith frame newLine
  then JSString.slice frame
         (JSString.indexOf frame newLine
          + Z.of_nat (String.length newLine))%Z
  else frame.

(** Converts a Typescript type error into an equivalent esbuild warning
    object. *)
Definition diagnosticToWarning {ts : TypescriptApi}
           (host : option FormatDiagnosticsHost) (diagnostic : Diagnostic)
  : Warning :=
  let pluginCode :=
    String.append "TS"
      (NilEmpty.string_of_uint (Nat.to_uint (code diagnostic))) in
  let message := flattenDiagnosticMessageText diagnostic in
  let warningText :=
    String.append "@libmedia/esbuild-plugin-typescript "
      (String.append pluginCode (String.append ": " message)) in
  match file diagnostic with
  | Some sourceFile =>
      let (l, character) :=
        getLineAndCharacterOfPosition sourceFile (start diagnostic) in
      {| pluginName := "@libmedia/esbuild-plugin-typescript";
         text := warningText;
         location := Some {| column := character + 1;
                             line := l + 1;
                             locationFile := fileName sourceFile |};
         detail :=
           match host with
           | Some h =>
               Some (codeFrame
                       (formatDiagnosticsWithColorAndContext diagnostic h)
                       message (getNewLine h))
           | None => None
           end |}
  | None =>
      {| pluginName := "@libmedia/esbuild-plugin-typescript";
         text := warningText;
         location := None;
         detail := None |}
  end.

End Diagnostics.

(** ** The end hook's writes and [emitFile] *)

Module EndHook.

(** A call into Node's [fs]: creating a directory with its parents, and
    writing a file. *)
Inductive FsCall :=
| Mkdir (dir : string)
| WriteFile (file data : string).

(** What the end hook reads besides the plugin state:
    [parsedOptions.options.declarationDir], [parsedOptions.configPath],
    [build.initialOptions.outdir] and [outfile], and the value of
    [ts.getTsBuildInfoEmitOutputFilePath(parsedOptions.options)]. *)
Record EndOptions := {
  declarationDir : option string;
  configPath : string;
  outdir : option string;
  outfile : option string;
  tsBuildInfoPath : option string
}.

Section EndHook.

Context {C H : Type} {cacheOps : TSCacheOps C} {host : Host}
        {nodePath : Options.NodePath}.

(** outputFile.ts: [emitFile]. *)
Definition emitFile (filePath fileSource : string) : list FsCall :=
  let normalizedFilePath := normalizePath filePath in
  [Mkdir (Options.dirname normalizedFilePath);
   WriteFile normalizedFilePath fileSource].

(** The directory the declarations go to: [declarationDir] resolved against
    the configuration path, else esbuild's [outdir], else the directory of
    its [outfile]. *)
Definition baseDirOf (eo : EndOptions) : option string :=
  if JS.truthyString (declarationDir eo) then
    match declarationDir eo with
    | Some d => Some (Options.resolve (configPath eo) d)
    | None => None
    end
  else if JS.truthyString (outdir eo) then outdir eo
  else if JS.truthyString (outfile eo) then
    match outfile eo with
    | Some f => Some (Options.dirname f)
    | None => None
    end
  else None.

(** The body of the [forEach] of the end hook. *)
Definition writeDeclaration (st : PluginState C H) (eo : EndOptions)
           (id : string) : list FsCall :=
  let content := getEmittedFile (Some id) (emittedFiles st) (tsCache st) in
  if negb (JS.truthyString content)
     || negb (JS.truthy (declaration (options (parsedOptions st))))
  then []
  else
    match baseDirOf eo, content with
    | Some baseDir, Some data =>
        if JS.truthyString (Some baseDir) then
          let fileName := Options.pathJoin baseDir (Options.basename id) in
          [Mkdir (Options.dirname fileName); WriteFile fileName data]
        else []
    | _, _ => []
    end.

(** The build-info file, written when the compiler names one and it was
    emitted with some content. *)
Definition writeBuildInfo (st : PluginState C H) (eo : EndOptions)
  : list FsCall :=
  match tsBuildInfoPath eo with
  | Some path =>
      if JS.truthyString (Some path) then
        match StrMap.get path (emittedFiles st) with
        | Some source =>
            if JS.truthyString (Some source) then emitFile path source
            else []
        | None => []
        end
      else []
  | None => []
  end.

(** The file-system calls of the end hook, in order. *)
Definition onEnd (st : PluginState C H) (eo : EndOptions) : list FsCall :=
  flat_map (writeDeclaration st eo) (declarationAndTypeScriptMapFiles st)
  ++ writeBuildInfo st eo.

End EndHook.

End EndHook.

(** ** A stand-in for Node's path module *)

Module PathSample.

(** Everything before the last slash. *)
Definition dirname (p : string) : string :=
  JSString.join "/" (removelast (JSString.split "/"%char p)).

(** Everything after the last slash. *)
Definition basename (p : string) : string :=
  List.last (JSString.split "/"%char p) EmptyString.

Definition joinPath (a b : string) : string :=
  String.append a (String.append "/" b).

(** The path from [from] to [to] when [to] lies under [from], and a path
    that climbs out of [from] otherwise. *)
Definition relative (from to : string) : string :=
  if String.prefix (String.append from "/") to
  then JSString.drop (String.length from + 1) to
  else String.append "../" to.

Definition nodePath : Options.NodePath := {|
  Options.relative := relative;
  Options.dirname := dirname;
  Options.basename := basename;
  Options.resolve := joinPath;
  Options.pathJoin := joinPath
|}.

(** A flattening that gives every diagnostic the same text, and a
    formatter that puts a position before it and a frame after it. *)
Definition typescriptApi : Diagnostics.TypescriptApi := {|
  Diagnostics.flattenDiagnosticMessageText :=
    fun _ => "Type 'string' is not assignable to type 'number'.";
  Diagnostics.formatDiagnosticsWithColorAndContext :=
    fun _ h =>
      String.append "src/a.ts:1:7 - error TS2322: "
        (String.append "Type 'string' is not assignable to type 'number'."
           (String.append (Diagnostics.getNewLine h)
              (String.append (Diagnostics.getNewLine h) "1 const a: number = 'x';")))
|}.

Definition sourceFile : Diagnostics.SourceFile := {|
  Diagnostics.fileName := "src/a.ts";
  Diagnostics.getLineAndCharacterOfPosition := fun pos => (0, pos)
|}.

Definition diagnostic : Diagnostics.Diagnostic := {|
  Diagnostics.code := 2322;
  Diagnostics.file := Some sourceFile;
  Diagnostics.start := 6
|}.

Definition endOptions : EndHook.EndOptions := {|
  EndHook.declarationDir := None;
  EndHook.configPath := "/project";
  EndHook.outdir := Some "dist";
  EndHook.outfile := None;
  EndHook.tsBuildInfoPath := Some "dist\tsconfig.tsbuildinfo"
|}.

End PathSample.

(** * Properties *)

(** ** Strings and maps *)

Lemma endsWith_append (pre suffix : string) :
  JS.endsWith (String.append pre suffix) suffix = true.
Proof.
  induction pre as [|c pre IH]; cbn [String.append JS.endsWith].
  - destruct suffix; cbn [JS.endsWith]; now rewrite String.eqb_refl.
  - rewrite IH. apply orb_true_r.
Qed.

Lemma endsWith_split (name suffix : string) :
  JS.endsWith name suffix = true ->
  exists pre, name = String.append pre suffix.
Proof.
  induction name as [|c name IH]; cbn [JS.endsWith]; intro E.
  - rewrite orb_false_r in E. apply String.eqb_eq in E.
    exists EmptyString. exact E.
  - apply orb_true_iff in E. destruct E as [E|E].
    + apply String.eqb_eq in E. exists EmptyString. exact E.
    + destruct (IH E) as [pre ->]. exists (String c pre). reflexivity.
Qed.

Lemma append_assoc (a b c : string) :
  String.append (String.append a b) c = String.append a (String.append b c).
Proof. induction a as [|x a IH]; simpl; [reflexivity | now rewrite IH]. Qed.

(** A suffix of a suffix is a suffix. *)
Lemma endsWith_trans (name mid suffix : string) :
  JS.endsWith name mid = true -> JS.endsWith mid suffix = true ->
  JS.endsWith name suffix = true.
Proof.
  intros E1 E2.
  destruct (endsWith_split _ _ E1) as [p1 ->].
  destruct (endsWith_split _ _ E2) as [p2 ->].
  rewrite <- append_assoc. apply endsWith_append.
Qed.

Lemma get_set_same (k v : string) (m : StrMap.t) :
  StrMap.get k (StrMap.set k v m) = Some v.
Proof.
  induction m as [|[k' v'] m IH]; simpl.
  - now rewrite String.eqb_refl.
  - destruct (k' =? k)%string eqn:E; simpl.
    + now rewrite String.eqb_refl.
    + now rewrite E.
Qed.

Lemma get_set_other (k k' v : string) (m : StrMap.t) :
  k' <> k -> StrMap.get k' (StrMap.set k v m) = StrMap.get k' m.
Proof.
  intro N. induction m as [|[k0 v0] m IH]; simpl.
  - destruct (k =? k')%string eqn:E; [|reflexivity].
    apply String.eqb_eq in E. congruence.
  - destruct (k0 =? k)%string eqn:E; simpl.
    + apply String.eqb_eq in E. subst k0.
      destruct (k =? k')%string eqn:E'; [|reflexivity].
      apply String.eqb_eq in E'. congruence.
    + now rewrite IH.
Qed.

(** ** Classification of output names *)

Lemma find_first {A} (f : A -> bool) (l : list A) (x : A) :
  find f l = Some x ->
  f x = true /\
  exists before after,
    l = before ++ x :: after /\ forall y, In y before -> f y = false.
Proof.
  induction l as [|a l IH]; simpl; [discriminate|].
  destruct (f a) eqn:E; intro F.
  - injection F as ->. split; [exact E|].
    exists [], l. split; [reflexivity | intros y []].
  - destruct (IH F) as [Fx (b & c & -> & Hb)]. split; [exact Fx|].
    exists (a :: b), c. split; [reflexivity|].
    intros y [<-|Hy]; auto.
Qed.

Lemma find_some_of_member {A} (f : A -> bool) (l : list A) (x : A) :
  In x l -> f x = true -> exists y, find f l = Some y.
Proof.
  intros Hin Fx. destruct (find f l) as [y|] eqn:E; [eauto|].
  pose proof (find_none f l E x Hin). congruence.
Qed.

Lemma differs_iff (name : string) (slot : option string) :
  differs name slot = true <-> slot <> Some name.
Proof.
  destruct slot as [s|]; simpl.
  - rewrite negb_true_iff. split.
    + intros E Heq. injection Heq as ->. now rewrite String.eqb_refl in E.
    + intro N. apply String.eqb_neq. congruence.
  - split; [discriminate | reflexivity].
Qed.

(** A name with the map suffix is never the code file. *)
Lemma codeFile_not_map (names : list string) (name : string) :
  isMapOutputFile name = true -> codeFile names <> Some name.
Proof.
  intros M E. apply find_some in E. destruct E as [_ E].
  unfold isCodeOutputFile in E. rewrite M in E. discriminate.
Qed.





Lemma length_append (a b : string) :
  String.length (String.append a b) = String.length a + String.length b.
Proof. induction a as [|x a IH]; simpl; [reflexivity | now rewrite IH]. Qed.

(** The input a [.d.ts] declaration is taken to come from. *)
Lemma replace_dts_append (stem : string) :
  JS.replace_dts (String.append stem ".d.ts") = String.append stem ".ts".
Proof.
  induction stem as [|c stem IH]; [reflexivity|].
  cbn [String.append JS.replace_dts]. rewrite IH.
  destruct (String c (String.append stem ".d.ts") =? ".d.ts")%string eqn:E;
    [|reflexivity].
  apply String.eqb_eq in E. injection E as _ E.
  apply (f_equal String.length) in E. rewrite length_append in E.
  simpl in E. lia.
Qed.

(** A normalized path has no backslash left. *)
Lemma normalizePath_no_backslash (fileName : string) :
  JSString.occurs "092" (normalizePath fileName) = false.
Proof.
  unfold normalizePath. induction fileName as [|c s IH]; [reflexivity|].
  cbn [JS.replaceAll JSString.occurs]. rewrite IH, orb_false_r.
  destruct (Ascii.eqb c "092") eqn:B; [reflexivity | exact B].
Qed.

Section PluginProperties.

Context {C H : Type} {cacheOps : TSCacheOps C} {helperOps : WatchHelperOps H}
        {host : Host}.

Local Abbreviation State := (PluginState C H).

(** C3 (amended): the end-of-build enumeration contains exactly the
    emitted file names that are either a declaration whose name, with a
    final [.d.ts] rewritten to [.ts], passes the inclusion filter, or a
    TypeScript source map (a name ending in [ts.map]); source maps are
    enumerated without the filter being consulted. *)
Theorem C3_end_enumeration (st : State) (fileName : string) :
  In fileName (declarationAndTypeScriptMapFiles st)
  <-> In fileName (StrMap.keys (emittedFiles st)) /\
      ((isDeclarationOutputFile fileName = true /\
        filter (JS.replace_dts fileName) = true)
       \/ isTypeScriptMapOutputFile fileName = true).
Proof.
  unfold declarationAndTypeScriptMapFiles.
  rewrite filter_In, orb_true_iff, andb_true_iff. reflexivity.
Qed.

(** C5: the write-output hook stores the content in the emitted-files map
    under the file name, and hands it to the disk cache if and only if the
    composite or the incremental option is enabled. *)
Theorem C5_writeFile_stores_and_caches (st : State) (fileName data : string) :
  let enabled :=
    composite (options (parsedOptions st)) = Some true
    \/ incremental (options (parsedOptions st)) = Some true in
  StrMap.get fileName (emittedFiles (writeFile fileName data st)) = Some data
  /\ (enabled ->
      tsCache (writeFile fileName data st)
      = cacheCode fileName data (tsCache st))
  /\ (~ enabled -> tsCache (writeFile fileName data st) = tsCache st).
Proof.
  cbv zeta. unfold writeFile; simpl. split; [apply get_set_same|].
  destruct (composite (options (parsedOptions st))) as [[|]|];
    destruct (incremental (options (parsedOptions st))) as [[|]|];
    simpl; split; intro E; try reflexivity;
    try (exfalso; apply E; auto; fail);
    destruct E; discriminate.
Qed.

(** The write-output hook leaves every other entry of the emitted-files
    map as it was. *)
Lemma writeFile_other (st : State) (fileName data other : string) :
  other <> fileName ->
  StrMap.get other (emittedFiles (writeFile fileName data st))
  = StrMap.get other (emittedFiles st).
Proof. intro N. unfold writeFile; simpl. now apply get_set_other. Qed.

(** C6: a file name is looked up in the emitted-files map first and in the
    disk cache only when the map has no entry for it; a name in neither,
    or an undefined name, gives undefined.  The code and map slots of
    [findTypescriptOutput] are this lookup at the code file and at the map
    file, and an absent code or map file leaves its slot undefined.  A load
    whose code slot is undefined returns no result, and one whose code slot
    holds some content returns it. *)
Theorem C6_lookup_order (fileName : string) (emitted : StrMap.t) (cache : C)
        (parsed : ParsedCommandLine) (path : string) (st : State) :
  fileName <> "" ->
  getEmittedFile (Some fileName) emitted cache
  = match StrMap.get fileName emitted with
    | Some content => Some content
    | None => getCached fileName cache
    end
  /\ (forall content,
         StrMap.get fileName emitted = Some content ->
         getEmittedFile (Some fileName) emitted cache = Some content)
  /\ (StrMap.get fileName emitted = None ->
      getEmittedFile (Some fileName) emitted cache = getCached fileName cache)
  /\ (StrMap.get fileName emitted = None -> getCached fileName cache = None ->
      getEmittedFile (Some fileName) emitted cache = None)
  /\ getEmittedFile None emitted cache = None
  /\ (forall f,
         f <> "" ->
         codeFile (getOutputFileNames parsed path) = Some f ->
         code (findTypescriptOutput parsed path emitted cache)
         = match StrMap.get f emitted with
           | Some content => Some content
           | None => getCached f cache
           end)
  /\ (forall f,
         f <> "" ->
         mapFile (getOutputFileNames parsed path) = Some f ->
         map (findTypescriptOutput parsed path emitted cache)
         = match StrMap.get f emitted with
           | Some content => Some content
           | None => getCached f cache
           end)
  /\ (codeFile (getOutputFileNames parsed path) = None ->
      code (findTypescriptOutput parsed path emitted cache) = None)
  /\ (mapFile (getOutputFileNames parsed path) = None ->
      map (findTypescriptOutput parsed path emitted cache) = None)
  /\ (code (findTypescriptOutput (parsedOptions (snd (onLoad path st))) path
                                 (emittedFiles st) (tsCache st)) = None ->
      fst (onLoad path st) = None)
  /\ (forall content,
         filter path = true ->
         code (findTypescriptOutput (parsedOptions (snd (onLoad path st)))
                                    path (emittedFiles st) (tsCache st))
         = Some content ->
         fst (onLoad path st)
         = Some {| contents := content;
                   resultErrors := errors st;
                   resultWarnings := warnings st |}).
Proof.
  intro N.
  assert (L : forall f, f <> "" ->
                getEmittedFile (Some f) emitted cache
                = match StrMap.get f emitted with
                  | Some content => Some content
                  | None => getCached f cache
                  end).
  { intros f Nf. unfold getEmittedFile, StrMap.has, JS.truthyString.
    apply String.eqb_neq in Nf. rewrite Nf. cbn [negb].
    now destruct (StrMap.get f emitted). }
  split; [now apply L|].
  split; [intros content E; rewrite (L _ N), E; reflexivity|].
  split; [intro E; rewrite (L _ N), E; reflexivity|].
  split; [intros E E'; rewrite (L _ N), E; exact E'|].
  split; [reflexivity|].
  split; [intros f Nf E; unfold findTypescriptOutput; cbn [code];
          rewrite E; now apply L|].
  split; [intros f Nf E; unfold findTypescriptOutput; cbn [map];
          rewrite E; now apply L|].
  split; [intro E; unfold findTypescriptOutput; cbn [code];
          now rewrite E|].
  split; [intro E; unfold findTypescriptOutput; cbn [map];
          now rewrite E|].
  split.
  - unfold onLoad. destruct (negb (filter path)); [reflexivity|].
    unfold onLoad_resume; simpl. intro E. now rewrite E.
  - intros content F. unfold onLoad. rewrite F. cbn [negb].
    unfold onLoad_resume; simpl. now intros ->.
Qed.

(** The guard [if (fileName)] treats the empty name like an undefined
    one. *)
Lemma getEmittedFile_empty_name (emitted : StrMap.t) (cache : C) :
  getEmittedFile (Some "") emitted cache = None.
Proof. reflexivity. Qed.

(** A load that finds its code hands over the pending messages with it. *)
Lemma onLoad_attaches_messages path (st : State) c :
  filter path = true ->
  code (findTypescriptOutput (parsedOptions (snd (onLoad path st))) path
                             (emittedFiles st) (tsCache st)) = Some c ->
  fst (onLoad path st)
  = Some {| contents := c;
            resultErrors := errors st;
            resultWarnings := warnings st |}.
Proof.
  unfold onLoad. intros ->. simpl negb. cbv iota.
  unfold onLoad_resume; simpl. now intros ->.
Qed.

(** Every load that passes the filter leaves no pending message behind,
    whether or not it returned a result. *)
Lemma onLoad_clears_messages path (st : State) :
  filter path = true ->
  errors (snd (onLoad path st)) = []
  /\ warnings (snd (onLoad path st)) = [].
Proof.
  unfold onLoad. intros ->. simpl negb. cbv iota.
  unfold onLoad_resume; simpl. split; reflexivity.
Qed.

(** *** What reporting and the start hook leave alone *)

Lemma report_parsedOptions r (st : State) :
  parsedOptions (report r st) = parsedOptions st.
Proof. now destruct r. Qed.

Lemma report_emittedFiles r (st : State) :
  emittedFiles (report r st) = emittedFiles st.
Proof. now destruct r. Qed.

Lemma report_tsCache r (st : State) : tsCache (report r st) = tsCache st.
Proof. now destruct r. Qed.

Lemma report_helper r (st : State) :
  watchProgramHelper (report r st) = watchProgramHelper st.
Proof. now destruct r. Qed.

Lemma report_program r (st : State) : program (report r st) = program st.
Proof. now destruct r. Qed.

Lemma report_watchPrograms r (st : State) :
  watchPrograms (report r st) = watchPrograms st.
Proof. now destruct r. Qed.

Ltac by_reports lemma :=
  let rs := fresh "rs" in
  let st := fresh "st" in
  intros rs; unfold reportAll;
  induction rs as [|r rs IH]; intro st; simpl;
  [reflexivity | rewrite IH; apply lemma].

Lemma reportAll_parsedOptions rs : forall st : State,
  parsedOptions (reportAll rs st) = parsedOptions st.
Proof. revert rs. by_reports report_parsedOptions. Qed.

Lemma reportAll_emittedFiles rs : forall st : State,
  emittedFiles (reportAll rs st) = emittedFiles st.
Proof. revert rs. by_reports report_emittedFiles. Qed.

Lemma reportAll_tsCache rs : forall st : State,
  tsCache (reportAll rs st) = tsCache st.
Proof. revert rs. by_reports report_tsCache. Qed.

Lemma reportAll_helper rs : forall st : State,
  watchProgramHelper (reportAll rs st) = watchProgramHelper st.
Proof. revert rs. by_reports report_helper. Qed.

Lemma reportAll_program rs : forall st : State,
  program (reportAll rs st) = program st.
Proof. revert rs. by_reports report_program. Qed.

Lemma reportAll_watchPrograms rs : forall st : State,
  watchPrograms (reportAll rs st) = watchPrograms st.
Proof. revert rs. by_reports report_watchPrograms. Qed.

Create Rewrite HintDb reports.

Hint Rewrite reportAll_parsedOptions reportAll_emittedFiles
     reportAll_tsCache reportAll_helper reportAll_program
     reportAll_watchPrograms : reports.

Lemma onStart_parsedOptions build (st : State) :
  parsedOptions (onStart build st) = parsedOptions st.
Proof.
  unfold onStart. cbv zeta. autorewrite with reports.
  destruct (program st); simpl; autorewrite with reports; reflexivity.
Qed.

Lemma onStart_stores build (st : State) :
  emittedFiles (onStart build st) = emittedFiles st
  /\ tsCache (onStart build st) = tsCache st.
Proof.
  unfold onStart. cbv zeta. autorewrite with reports.
  destruct (program st); simpl; autorewrite with reports;
    split; reflexivity.
Qed.

Lemma onStart_creates build (st : State) :
  program st = None ->
  program (onStart build st) = Some (length (watchPrograms st))
  /\ watchPrograms (onStart build st)
     = watchPrograms st ++ [{| closed := false |}]
  /\ watchProgramHelper (onStart build st) = watchProgramHelper st.
Proof.
  intro E. unfold onStart. cbv zeta. autorewrite with reports.
  rewrite E. unfold createWatchProgram; simpl.
  autorewrite with reports. repeat split; reflexivity.
Qed.

Lemma onStart_wakes build (st : State) i :
  program st = Some i ->
  program (onStart build st) = Some i
  /\ watchPrograms (onStart build st) = watchPrograms st
  /\ watchProgramHelper (onStart build st)
     = watch (watchProgramHelper st).
Proof.
  intro E. unfold onStart. cbv zeta. autorewrite with reports.
  rewrite E. simpl. autorewrite with reports.
  repeat split; try reflexivity. exact E.
Qed.

(** *** The file list under the hooks *)

Lemma includes_In (l : list string) (x : string) :
  JS.includes l x = true <-> In x l.
Proof.
  unfold JS.includes. rewrite existsb_exists. split.
  - intros [y [Hy E]]. apply String.eqb_eq in E. now subst.
  - intro Hx. exists x. split; [exact Hx | apply String.eqb_refl].
Qed.

Lemma onLoad_resume_fileNames path (st : State) :
  fileNames (parsedOptions (snd (onLoad_resume path st)))
  = if JS.includes (fileNames (parsedOptions st)) (normalizePath path)
    then fileNames (parsedOptions st)
    else fileNames (parsedOptions st) ++ [normalizePath path].
Proof.
  unfold onLoad_resume; simpl.
  destruct (JS.includes _ _); reflexivity.
Qed.

Lemma onLoad_resume_options path (st : State) :
  options (parsedOptions (snd (onLoad_resume path st)))
  = options (parsedOptions st).
Proof.
  unfold onLoad_resume; simpl.
  destruct (JS.includes _ _); reflexivity.
Qed.

Lemma hook_options h (st : State) :
  options (parsedOptions (hook h st)) = options (parsedOptions st).
Proof.
  destruct h; simpl; try reflexivity.
  - now rewrite onStart_parsedOptions.
  - unfold onLoad. destruct (negb (filter path)); [reflexivity|].
    apply onLoad_resume_options.
  - unfold onDispose. destruct (program st); reflexivity.
  - now rewrite report_parsedOptions.
Qed.

(** Every hook leaves the file list as it is or appends to it. *)
Lemma hook_fileNames h (st : State) :
  exists added,
    fileNames (parsedOptions (hook h st))
    = fileNames (parsedOptions st) ++ added.
Proof.
  destruct h; simpl;
    try (exists []; rewrite app_nil_r; reflexivity).
  - exists []. now rewrite app_nil_r, onStart_parsedOptions.
  - unfold onLoad. destruct (negb (filter path)).
    + exists []. now rewrite app_nil_r.
    + rewrite onLoad_resume_fileNames. destruct (JS.includes _ _).
      * exists []. now rewrite app_nil_r.
      * eexists; reflexivity.
  - exists []. rewrite app_nil_r. unfold onDispose.
    destruct (program st); reflexivity.
  - exists []. now rewrite app_nil_r, report_parsedOptions.
Qed.

Lemma hooks_fileNames hs : forall st : State,
  exists added,
    fileNames (parsedOptions (hooks hs st))
    = fileNames (parsedOptions st) ++ added.
Proof.
  unfold hooks. induction hs as [|h hs IH]; intro st; simpl.
  - exists []. now rewrite app_nil_r.
  - destruct (IH (hook h st)) as [a2 E2].
    destruct (hook_fileNames h st) as [a1 E1].
    exists (a1 ++ a2). now rewrite E2, E1, app_assoc.
Qed.

(** A name already in the file list keeps its number of occurrences. *)
Lemma hook_keeps_count h (st : State) (x : string) :
  In x (fileNames (parsedOptions st)) ->
  count_occ string_dec (fileNames (parsedOptions (hook h st))) x
  = count_occ string_dec (fileNames (parsedOptions st)) x.
Proof.
  intro Hx. destruct h; simpl; try reflexivity.
  - now rewrite onStart_parsedOptions.
  - unfold onLoad. destruct (negb (filter path)); [reflexivity|].
    rewrite onLoad_resume_fileNames.
    destruct (JS.includes _ _) eqn:E; [reflexivity|].
    rewrite count_occ_app. simpl.
    destruct (string_dec (normalizePath path) x) as [<-|_]; [|lia].
    apply includes_In in Hx. congruence.
  - unfold onDispose. destruct (program st); reflexivity.
  - now rewrite report_parsedOptions.
Qed.

Lemma hooks_keep_count hs : forall (st : State) (x : string),
  In x (fileNames (parsedOptions st)) ->
  count_occ string_dec (fileNames (parsedOptions (hooks hs st))) x
  = count_occ string_dec (fileNames (parsedOptions st)) x.
Proof.
  unfold hooks. induction hs as [|h hs IH]; intros st x Hx; simpl.
  - reflexivity.
  - rewrite IH.
    + now apply hook_keeps_count.
    + destruct (hook_fileNames h st) as [a ->].
      apply in_or_app. now left.
Qed.

(** C7 (amended): a load of a path that passes the inclusion filter and
    whose normalized form, which has no backslash, is not in the file list
    appends that form; loading the same path again appends nothing, and
    whatever hooks run afterwards the name stays in the list exactly once.
    A load of a path the filter rejects changes nothing.  No sequence of
    hooks ever shortens the list. *)
Theorem C7_discovered_file_appended_once
        (st : State) (path : string) (later : list Hook) :
  filter path = true ->
  ~ In (normalizePath path) (fileNames (parsedOptions st)) ->
  let st1 := snd (onLoad path st) in
  fileNames (parsedOptions st1)
  = fileNames (parsedOptions st) ++ [normalizePath path]
  /\ JSString.occurs "092" (normalizePath path) = false
  /\ fileNames (parsedOptions (snd (onLoad path st1)))
     = fileNames (parsedOptions st1)
  /\ count_occ string_dec (fileNames (parsedOptions (hooks later st1)))
               (normalizePath path) = 1
  /\ (forall (rejected : string) (st0 : State),
         filter rejected = false -> onLoad rejected st0 = (None, st0))
  /\ (forall (hs : list Hook) (st0 : State),
         exists added,
           fileNames (parsedOptions (hooks hs st0))
           = fileNames (parsedOptions st0) ++ added).
Proof.
  intros F N. cbv zeta.
  assert (E : JS.includes (fileNames (parsedOptions st))
                          (normalizePath path) = false).
  { destruct (JS.includes _ _) eqn:E; [|reflexivity].
    apply includes_In in E. contradiction. }
  assert (E1 : fileNames (parsedOptions (snd (onLoad path st)))
               = fileNames (parsedOptions st) ++ [normalizePath path]).
  { unfold onLoad. rewrite F. simpl negb. cbv iota.
    now rewrite onLoad_resume_fileNames, E. }
  assert (In1 : In (normalizePath path)
                   (fileNames (parsedOptions (snd (onLoad path st))))).
  { rewrite E1. apply in_or_app. right. now left. }
  split; [exact E1|]. split; [apply normalizePath_no_backslash|].
  split; [|split; [|split]].
  - unfold onLoad at 1. rewrite F. simpl negb. cbv iota.
    rewrite onLoad_resume_fileNames.
    apply includes_In in In1. now rewrite In1.
  - rewrite hooks_keep_count by exact In1.
    rewrite E1, count_occ_app. simpl.
    destruct (string_dec (normalizePath path) (normalizePath path));
      [|congruence].
    rewrite (proj1 (count_occ_not_In string_dec _ _) N). reflexivity.
  - intros rejected st0 R. unfold onLoad. now rewrite R.
  - intros hs st0. apply hooks_fileNames.
Qed.

(** *** Watch-compiler instances *)

Lemma closeAt_length i : forall ws, length (closeAt i ws) = length ws.
Proof.
  induction i as [|i IH]; intros [|w ws]; simpl; auto.
Qed.

(** Either no instance exists and none was created, or [program] holds
    the only one; every hook keeps it so. *)
Lemma hook_instances h (st : State) :
  (program st = None /\ watchPrograms st = []
   \/ (exists i, program st = Some i) /\ length (watchPrograms st) = 1) ->
  (program (hook h st) = None /\ watchPrograms (hook h st) = []
   \/ (exists i, program (hook h st) = Some i)
      /\ length (watchPrograms (hook h st)) = 1).
Proof.
  intro I. destruct h; simpl; try exact I.
  - destruct I as [[P W]|[[i P] W]].
    + right. destruct (onStart_creates build st P) as (-> & -> & _).
      rewrite W. split; [eauto | reflexivity].
    + right. destruct (onStart_wakes build st i P) as (-> & -> & _).
      split; [eauto | exact W].
  - unfold onLoad. destruct (negb (filter path)); [exact I|].
    unfold onLoad_resume; simpl. exact I.
  - unfold onDispose. destruct (program st) as [i|] eqn:P;
      [|rewrite P; exact I].
    simpl. right. split; [eauto|]. rewrite closeAt_length.
    destruct I as [[? _]|[_ W]]; [discriminate | exact W].
  - now rewrite report_program, report_watchPrograms.
Qed.

Lemma hooks_instances hs : forall st : State,
  (program st = None /\ watchPrograms st = []
   \/ (exists i, program st = Some i) /\ length (watchPrograms st) = 1) ->
  length (watchPrograms (hooks hs st)) <= 1.
Proof.
  unfold hooks. induction hs as [|h hs IH]; intros st I; simpl.
  - destruct I as [[_ ->]|[_ ->]]; simpl; lia.
  - apply IH. now apply hook_instances.
Qed.

(** C9: the start hook creates a watch-compiler instance only when there
    is none, and otherwise keeps the instance and calls the helper's
    [watch]; over any sequence of hooks of a plugin at most one instance
    is ever created. *)
Theorem C9_single_watch_program :
  (forall (st : State) build,
      program st = None ->
      program (onStart build st) = Some (length (watchPrograms st))
      /\ watchPrograms (onStart build st)
         = watchPrograms st ++ [{| closed := false |}]
      /\ watchProgramHelper (onStart build st) = watchProgramHelper st)
  /\ (forall (st : State) build i,
         program st = Some i ->
         program (onStart build st) = Some i
         /\ watchPrograms (onStart build st) = watchPrograms st
         /\ watchProgramHelper (onStart build st)
            = watch (watchProgramHelper st))
  /\ (forall parsed (cache : C) (helper : H) (hs : list Hook),
         length (watchPrograms (hooks hs (typescript parsed cache helper)))
         <= 1).
Proof.
  split; [exact (fun st b => onStart_creates b st)|].
  split; [exact (fun st b i => onStart_wakes b st i)|].
  intros parsed cache helper hs. apply hooks_instances.
  left. split; reflexivity.
Qed.

(** *** Source maps *)

Lemma hooks_options hs : forall st : State,
  options (parsedOptions (hooks hs st)) = options (parsedOptions st).
Proof.
  unfold hooks. induction hs as [|h hs IH]; intro st; simpl.
  - reflexivity.
  - rewrite IH. apply hook_options.
Qed.

(** C10: when the parsed configuration has [sourceMap] enabled, the
    factory sets [sourceMap] to false and [inlineSources] and
    [inlineSourceMap] to true before any hook runs, and no hook changes
    the options afterwards, so the watch compiler only ever sees the
    rewritten options. *)
Theorem C10_sourceMap_rewritten
        (parsed : ParsedCommandLine) (cache : C) (helper : H)
        (hs : list Hook) :
  JS.truthy (sourceMap (options parsed)) = true ->
  let st : State := typescript parsed cache helper in
  sourceMap (options (parsedOptions st)) = Some false
  /\ inlineSources (options (parsedOptions st)) = Some true
  /\ inlineSourceMap (options (parsedOptions st)) = Some true
  /\ options (parsedOptions (hooks hs st)) = options (parsedOptions st).
Proof.
  intro T. cbv zeta. rewrite hooks_options.
  unfold typescript; simpl. unfold rewriteSourceMap. rewrite T.
  repeat split; reflexivity.
Qed.

End PluginProperties.

(** ** Loads that wait for the coordinator *)

Section SessionProperties.

Context {C : Type} {cacheOps : TSCacheOps C} {host : Host}.

Ltac calc := cbn -[onLoad_resume].
Ltac calc_all := cbn -[onLoad_resume] in *.

Local Abbreviation Session := (PluginState C WatchCoordinator).

Lemma onLoad_resume_frame path (st : Session) :
  watchProgramHelper (snd (onLoad_resume path st)) = watchProgramHelper st
  /\ emittedFiles (snd (onLoad_resume path st)) = emittedFiles st
  /\ tsCache (snd (onLoad_resume path st)) = tsCache st.
Proof. unfold onLoad_resume; cbn. repeat split; reflexivity. Qed.

Lemma resumeAll_frame paths : forall st : Session,
  watchProgramHelper (fst (resumeAll paths st)) = watchProgramHelper st
  /\ emittedFiles (fst (resumeAll paths st)) = emittedFiles st
  /\ tsCache (fst (resumeAll paths st)) = tsCache st.
Proof.
  induction paths as [|p paths IH]; intro st; calc.
  - repeat split; reflexivity.
  - destruct (onLoad_resume p st) as [r st1] eqn:E.
    destruct (resumeAll paths st1) as [st2 rs] eqn:E2. calc.
    destruct (IH st1) as (I1 & I2 & I3). rewrite E2 in I1, I2, I3.
    destruct (onLoad_resume_frame p st) as (F1 & F2 & F3).
    rewrite E in F1, F2, F3. calc_all.
    repeat split; congruence.
Qed.

Lemma step_emittedFiles h (st : Session) :
  emittedFiles (fst (step h st)) = emittedAfter [h] (emittedFiles st).
Proof.
  destruct h; calc; try reflexivity.
  - apply onStart_stores.
  - destruct (filter path); calc; [|reflexivity].
    unfold Coordinator.wait.
    destruct (coordinatorState (watchProgramHelper st)); calc.
    + destruct (onLoad_resume_frame path st) as (_ & E & _).
      destruct (onLoad_resume path st). exact E.
    + reflexivity.
  - unfold onDispose. destruct (program st); reflexivity.
  - destruct (Coordinator.handleStatus diagnostic (watchProgramHelper st))
      as [c released].
    destruct (resumeAll_frame released (setHelper c st)) as (_ & E & _).
    exact E.
  - apply report_emittedFiles.
Qed.

Lemma run_emittedFiles hs : forall st : Session,
  emittedFiles (fst (run hs st)) = emittedAfter hs (emittedFiles st).
Proof.
  induction hs as [|h hs IH]; intro st; [reflexivity|].
  calc. pose proof (step_emittedFiles h st) as E.
  destruct (step h st) as [st1 out1]. specialize (IH st1).
  destruct (run hs st1) as [st2 out2]. calc_all.
  unfold emittedAfter in *. calc_all. congruence.
Qed.

(** The released requests resolve in the order they were queued. *)
Lemma resumeAll_paths paths : forall st : Session,
  List.map resolvedPath (snd (resumeAll paths st)) = paths.
Proof.
  induction paths as [|p paths IH]; intro st; calc; [reflexivity|].
  destruct (onLoad_resume p st) as [r st1].
  specialize (IH st1). destruct (resumeAll paths st1) as [st2 rs].
  calc_all. now rewrite IH.
Qed.

(** Each released request resolves to what [onLoad] computes on the
    stores and compiler options as they are when the queue is drained. *)
Lemma resumeAll_member paths : forall (st : Session) (p : string),
  In p paths ->
  exists at_ : Session,
    emittedFiles at_ = emittedFiles st
    /\ tsCache at_ = tsCache st
    /\ options (parsedOptions at_) = options (parsedOptions st)
    /\ In {| resolvedPath := p; result := fst (onLoad_resume p at_) |}
          (snd (resumeAll paths st)).
Proof.
  induction paths as [|q paths IH]; intros st p Hp; [destruct Hp|].
  calc. destruct (onLoad_resume q st) as [r st1] eqn:E.
  destruct Hp as [->|Hp].
  - exists st. destruct (resumeAll paths st1) as [st2 rs]. calc.
    rewrite E. calc. repeat split; try reflexivity. now left.
  - destruct (IH st1 p Hp) as (at_ & A1 & A2 & A3 & A4).
    destruct (onLoad_resume_frame q st) as (_ & F2 & F3).
    pose proof (onLoad_resume_options q st) as F4.
    rewrite E in F2, F3, F4. cbn -[onLoad_resume] in F2, F3, F4.
    exists at_. destruct (resumeAll paths st1) as [st2 rs]. calc_all.
    repeat split; try congruence. now right.
Qed.

Lemma onStart_helper_compiling build (st : Session) :
  isCompiling st = true ->
  isCompiling (onStart build st) = true
  /\ pending (watchProgramHelper (onStart build st))
     = pending (watchProgramHelper st).
Proof.
  intro K. unfold isCompiling in *.
  destruct (program st) as [i|] eqn:P.
  - destruct (onStart_wakes build st i P) as (_ & _ & ->).
    split; reflexivity.
  - destruct (onStart_creates build st P) as (_ & _ & ->).
    split; [exact K | reflexivity].
Qed.

Lemma onStart_helper_pending build (st : Session) :
  pending (watchProgramHelper (onStart build st))
  = pending (watchProgramHelper st).
Proof.
  destruct (program st) as [i|] eqn:P.
  - now destruct (onStart_wakes build st i P) as (_ & _ & ->).
  - now destruct (onStart_creates build st P) as (_ & _ & ->).
Qed.

Lemma onDispose_helper (st : Session) :
  watchProgramHelper (onDispose st) = watchProgramHelper st.
Proof. unfold onDispose. destruct (program st); reflexivity. Qed.

(** A callback after which the coordinator is Compiling resolves nothing
    but loads of paths the filter rejects, and keeps the queue, possibly
    with a new request at its end. *)
Lemma step_while_compiling h (st : Session) :
  isCompiling (fst (step h st)) = true ->
  (forall r, In r (snd (step h st)) ->
             filter (resolvedPath r) = false /\ result r = None)
  /\ exists added,
      pending (watchProgramHelper (fst (step h st)))
      = pending (watchProgramHelper st) ++ added.
Proof.
  destruct h; calc.
  - intros _. split; [intros res []|].
    exists []. now rewrite app_nil_r, onStart_helper_pending.
  - destruct (filter path) eqn:F; calc.
    + unfold Coordinator.wait.
      destruct (coordinatorState (watchProgramHelper st)) eqn:K.
      * destruct (onLoad_resume path st) as [r st1] eqn:E. calc.
        intro K1. unfold isCompiling in K1.
        destruct (onLoad_resume_frame path st) as (F1 & _).
        rewrite E in F1. cbn -[onLoad_resume] in F1. rewrite F1, K in K1. discriminate.
      * calc. intros _. split; [intros res []|]. eexists; reflexivity.
    + intros _. split.
      * intros r [<-|[]]. calc. split; [exact F | reflexivity].
      * exists []. now rewrite app_nil_r.
  - intros _. split; [intros res []|]. exists []. now rewrite app_nil_r.
  - intros _. split; [intros res []|].
    exists []. now rewrite app_nil_r, onDispose_helper.
  - intros _. split; [intros res []|]. exists []. now rewrite app_nil_r.
  - destruct diagnostic; calc.
    + intros _. split; [intros res []|]. exists []. now rewrite app_nil_r.
    + intro K. unfold isCompiling in K.
      destruct (resumeAll_frame (pending (watchProgramHelper st))
                  (setHelper {| coordinatorState := Idle; pending := [] |}
                             st)) as (F1 & _).
      rewrite F1 in K. discriminate.
    + intro K. unfold isCompiling in K.
      destruct (resumeAll_frame (pending (watchProgramHelper st))
                  (setHelper {| coordinatorState := Idle; pending := [] |}
                             st)) as (F1 & _).
      rewrite F1 in K. discriminate.
    + intros _. destruct st; calc.
      split; [intros res []|]. exists []. now rewrite app_nil_r.
  - intros _. split; [intros res []|].
    exists []. now rewrite app_nil_r, report_helper.
Qed.

(** The only callback that takes the coordinator from Compiling to Idle
    is a settling status, and it resumes the whole queue. *)
Lemma step_to_idle h (st : Session) :
  isCompiling st = true ->
  isCompiling (fst (step h st)) = false ->
  step h st
  = resumeAll (pending (watchProgramHelper st))
              (setHelper {| coordinatorState := Idle; pending := [] |} st).
Proof.
  intros K K1. destruct h; calc_all.
  - destruct (onStart_helper_compiling build st K) as [K2 _]. congruence.
  - destruct (filter path); calc_all; [|congruence].
    unfold Coordinator.wait in *. unfold isCompiling in K.
    destruct (coordinatorState (watchProgramHelper st)); [discriminate|].
    cbn -[onLoad_resume] in K1. discriminate.
  - congruence.
  - unfold isCompiling in *. rewrite onDispose_helper in K1. congruence.
  - unfold isCompiling in *. cbn -[onLoad_resume] in K1. congruence.
  - destruct diagnostic; calc_all; try reflexivity.
    + discriminate.
    + unfold isCompiling in *. destruct st; calc_all. congruence.
  - unfold isCompiling in *. rewrite report_helper in K1. congruence.
Qed.

Lemma run_while_compiling hs : forall st : Session,
  isCompiling st = true ->
  staysCompiling hs st = true ->
  (forall r, In r (snd (run hs st)) ->
             filter (resolvedPath r) = false /\ result r = None)
  /\ isCompiling (fst (run hs st)) = true
  /\ exists added,
      pending (watchProgramHelper (fst (run hs st)))
      = pending (watchProgramHelper st) ++ added.
Proof.
  induction hs as [|h hs IH]; intros st K S; calc_all.
  - split; [intros r []|]. split; [exact K|].
    exists []. now rewrite app_nil_r.
  - apply andb_true_iff in S. destruct S as [K1 S].
    destruct (step_while_compiling h st K1) as [Q [a1 P1]].
    destruct (step h st) as [st1 out1]. calc_all.
    destruct (IH st1 K1 S) as (Q2 & K2 & a2 & P2).
    destruct (run hs st1) as [st2 out2]. calc_all.
    split; [|split; [exact K2|]].
    + intros r Hr. apply in_app_or in Hr. destruct Hr; auto.
    + exists (a1 ++ a2). now rewrite P2, P1, app_assoc.
Qed.


End SessionProperties.

(** ** The model on concrete inputs *)

(** C1: a diagnostic recorded during a pass should reach the result of some
    load.  Here a type error is pending and the compiler has emitted no code
    for [src/a.ts]: the load returns no result, the pending error is cleared
    all the same, and the next load, which does return a result once the
    code has been emitted, carries no error. *)
Theorem C1_pending_error_dropped_without_code :
  errors Sample.failedPass = [Sample.typeError]
  /\ @filter Sample.host "src/a.ts" = true
  /\ fst (@onLoad _ _ Sample.cache Sample.host "src/a.ts" Sample.failedPass)
     = None
  /\ errors (snd (@onLoad _ _ Sample.cache Sample.host "src/a.ts"
                          Sample.failedPass)) = []
  /\ snd (@run _ Sample.cache Sample.host
               [HLoad "src/a.ts"; HWriteFile "src/a.js" "export {};";
                HLoad "src/a.ts"]
               Sample.failedPass)
     = [{| resolvedPath := "src/a.ts"; result := None |};
        {| resolvedPath := "src/a.ts";
           result := Some {| contents := "export {};";
                             resultErrors := [];
                             resultWarnings := [] |} |}].
Proof. repeat split; reflexivity. Qed.

(** With [vendor/] excluded and a declaration and its map emitted for
    [vendor/lib.ts], the enumeration leaves out the declaration and still
    lists the map, although no input it could come from passes the filter. *)
Lemma C3_counterexample :
  @declarationAndTypeScriptMapFiles _ _ Sample.host
    (@hooks _ _ Sample.cache _ Sample.host
       [HWriteFile "vendor/lib.d.ts" "export {};";
        HWriteFile "vendor/lib.d.ts.map" "{ mappings }"]
       Sample.fresh)
  = ["vendor/lib.d.ts.map"]
  /\ isDeclarationOutputFile "vendor/lib.d.ts" = true
  /\ isTypeScriptMapOutputFile "vendor/lib.d.ts.map" = true
  /\ @filter Sample.host "vendor/lib.ts" = false
  /\ @filter Sample.host (JS.replace_dts "vendor/lib.d.ts.map") = false
  /\ (forall input,
         String.prefix "vendor/" input = true ->
         @filter Sample.host input = false).
Proof.
  repeat split; try reflexivity.
  intros input E. simpl. now rewrite E.
Qed.



Lemma C6_lookup_order_witness :
  "src/a.js" <> ""
  /\ (@getEmittedFile _ Sample.cache (Some "src/a.js")
        [("src/a.js", "export {};")] StrMap.empty
      = match StrMap.get "src/a.js" [("src/a.js", "export {};")] with
        | Some content => Some content
        | None => @getCached _ Sample.cache "src/a.js" StrMap.empty
        end
      /\ (forall content,
             StrMap.get "src/a.js" [("src/a.js", "export {};")] = Some content ->
             @getEmittedFile _ Sample.cache (Some "src/a.js")
               [("src/a.js", "export {};")] StrMap.empty = Some content)
      /\ (StrMap.get "src/a.js" [("src/a.js", "export {};")] = None ->
          @getEmittedFile _ Sample.cache (Some "src/a.js")
            [("src/a.js", "export {};")] StrMap.empty
          = @getCached _ Sample.cache "src/a.js" StrMap.empty)
      /\ (StrMap.get "src/a.js" [("src/a.js", "export {};")] = None ->
          @getCached _ Sample.cache "src/a.js" StrMap.empty = None ->
          @getEmittedFile _ Sample.cache (Some "src/a.js")
            [("src/a.js", "export {};")] StrMap.empty = None)
      /\ @getEmittedFile _ Sample.cache None
           [("src/a.js", "export {};")] StrMap.empty = None
      /\ (forall f,
             f <> "" ->
             codeFile (@getOutputFileNames Sample.host Sample.parsed
                         "src/a.ts") = Some f ->
             code (@findTypescriptOutput _ Sample.cache Sample.host
                     Sample.parsed "src/a.ts" [("src/a.js", "export {};")]
                     StrMap.empty)
             = match StrMap.get f [("src/a.js", "export {};")] with
               | Some content => Some content
               | None => @getCached _ Sample.cache f StrMap.empty
               end)
      /\ (forall f,
             f <> "" ->
             mapFile (@getOutputFileNames Sample.host Sample.parsed
                        "src/a.ts") = Some f ->
             map (@findTypescriptOutput _ Sample.cache Sample.host
                    Sample.parsed "src/a.ts" [("src/a.js", "export {};")]
                    StrMap.empty)
             = match StrMap.get f [("src/a.js", "export {};")] with
               | Some content => Some content
               | None => @getCached _ Sample.cache f StrMap.empty
               end)
      /\ (codeFile (@getOutputFileNames Sample.host Sample.parsed "src/a.ts")
          = None ->
          code (@findTypescriptOutput _ Sample.cache Sample.host
                  Sample.parsed "src/a.ts" [("src/a.js", "export {};")]
                  StrMap.empty) = None)
      /\ (mapFile (@getOutputFileNames Sample.host Sample.parsed "src/a.ts")
          = None ->
          map (@findTypescriptOutput _ Sample.cache Sample.host
                 Sample.parsed "src/a.ts" [("src/a.js", "export {};")]
                 StrMap.empty) = None)
      /\ (code (@findTypescriptOutput _ Sample.cache Sample.host
                  (parsedOptions
                     (snd (@onLoad _ _ Sample.cache Sample.host "src/a.ts"
                                   Sample.fresh)))
                  "src/a.ts" (emittedFiles Sample.fresh)
                  (tsCache Sample.fresh)) = None ->
          fst (@onLoad _ _ Sample.cache Sample.host "src/a.ts" Sample.fresh)
          = None)
      /\ (forall content,
             @filter Sample.host "src/a.ts" = true ->
             code (@findTypescriptOutput _ Sample.cache Sample.host
                     (parsedOptions
                        (snd (@onLoad _ _ Sample.cache Sample.host "src/a.ts"
                                      Sample.fresh)))
                     "src/a.ts" (emittedFiles Sample.fresh)
                     (tsCache Sample.fresh)) = Some content ->
             fst (@onLoad _ _ Sample.cache Sample.host "src/a.ts"
                          Sample.fresh)
             = Some {| contents := content;
                       resultErrors := errors Sample.fresh;
                       resultWarnings := warnings Sample.fresh |})).
Proof.
  split; [discriminate|].
  apply (@C6_lookup_order _ _ Sample.cache Sample.host "src/a.js"
           [("src/a.js", "export {};")] StrMap.empty Sample.parsed
           "src/a.ts" Sample.fresh).
  discriminate.
Defined.

Lemma C7_discovered_file_appended_once_witness :
  @filter Sample.host "src\b.ts" = true
  /\ ~ In "src/b.ts" (fileNames (parsedOptions Sample.fresh))
  /\ (fileNames
        (parsedOptions
           (snd (@onLoad _ _ Sample.cache Sample.host "src\b.ts"
                         Sample.fresh)))
      = ["src/a.ts"] ++ ["src/b.ts"]
      /\ JSString.occurs "092" "src/b.ts" = false
      /\ fileNames
           (parsedOptions
              (snd (@onLoad _ _ Sample.cache Sample.host "src\b.ts"
                      (snd (@onLoad _ _ Sample.cache Sample.host "src\b.ts"
                                    Sample.fresh)))))
         = fileNames
             (parsedOptions
                (snd (@onLoad _ _ Sample.cache Sample.host "src\b.ts"
                              Sample.fresh)))
      /\ count_occ string_dec
           (fileNames
              (parsedOptions
                 (@hooks _ _ Sample.cache _ Sample.host
                    [HLoad "src/b.ts"; HStart Sample.build; HLoad "src\b.ts"]
                    (snd (@onLoad _ _ Sample.cache Sample.host "src\b.ts"
                                  Sample.fresh)))))
           "src/b.ts" = 1
      /\ (forall (rejected : string)
                 (st0 : PluginState StrMap.t WatchCoordinator),
             @filter Sample.host rejected = false ->
             @onLoad _ _ Sample.cache Sample.host rejected st0 = (None, st0))
      /\ (forall (hs : list Hook) (st0 : PluginState StrMap.t WatchCoordinator),
             exists added,
               fileNames (parsedOptions
                            (@hooks _ _ Sample.cache _ Sample.host hs st0))
               = fileNames (parsedOptions st0) ++ added)).
Proof.
  split; [reflexivity|].
  split; [simpl; intros [E|[]]; discriminate|].
  apply (@C7_discovered_file_appended_once _ _ Sample.cache _ Sample.host
           Sample.fresh "src\b.ts"
           [HLoad "src/b.ts"; HStart Sample.build; HLoad "src\b.ts"]).
  - reflexivity.
  - simpl; intros [E|[]]; discriminate.
Defined.

(** A load of a path the inclusion filter rejects: the path, which is its
    own normalized form, is not in the file list, and the load, however
    often it is repeated, appends nothing. *)
Lemma C7_counterexample :
  @filter Sample.host "vendor/lib.ts" = false
  /\ fileNames (parsedOptions Sample.fresh) = ["src/a.ts"]
  /\ normalizePath "vendor/lib.ts" = "vendor/lib.ts"
  /\ ~ In "vendor/lib.ts" (fileNames (parsedOptions Sample.fresh))
  /\ fileNames
       (parsedOptions
          (snd (@onLoad _ _ Sample.cache Sample.host "vendor/lib.ts"
                        Sample.fresh)))
     = ["src/a.ts"]
  /\ fileNames
       (parsedOptions
          (@hooks _ _ Sample.cache _ Sample.host
             [HLoad "vendor/lib.ts"; HLoad "vendor/lib.ts"] Sample.fresh))
     = ["src/a.ts"].
Proof.
  repeat split; try reflexivity.
  simpl; intros [E|[]]; discriminate.
Qed.

Lemma C10_sourceMap_rewritten_witness :
  JS.truthy (sourceMap (options Sample.withSourceMap)) = true
  /\ (sourceMap
        (options
           (parsedOptions
              (@typescript _ _ Sample.host Sample.withSourceMap
                 StrMap.empty Coordinator.create))) = Some false
      /\ inlineSources
           (options
              (parsedOptions
                 (@typescript _ _ Sample.host Sample.withSourceMap
                    StrMap.empty Coordinator.create))) = Some true
      /\ inlineSourceMap
           (options
              (parsedOptions
                 (@typescript _ _ Sample.host Sample.withSourceMap
                    StrMap.empty Coordinator.create))) = Some true
      /\ options
           (parsedOptions
              (@hooks _ _ Sample.cache _ Sample.host
                 [HStart Sample.build; HLoad "src/a.ts"]
                 (@typescript _ _ Sample.host Sample.withSourceMap
                    StrMap.empty Coordinator.create)))
         = options
             (parsedOptions
                (@typescript _ _ Sample.host Sample.withSourceMap
                   StrMap.empty Coordinator.create))).
Proof.
  split; [reflexivity|].
  apply (@C10_sourceMap_rewritten _ _ Sample.cache _ Sample.host
           Sample.withSourceMap StrMap.empty Coordinator.create
           [HStart Sample.build; HLoad "src/a.ts"]).
  reflexivity.
Defined.

(** * Further properties of the output-file helpers *)

Lemma option_eq_dec_string (a b : option string) : {a = b} + {a <> b}.
Proof. decide equality. apply string_dec. Qed.

Lemma last_append (a b : string) :
  b <> EmptyString -> JSString.last (String.append a b) = JSString.last b.
Proof.
  intro N. induction a as [|c a IH]; [reflexivity|].
  cbn [String.append JSString.last]. rewrite IH.
  destruct (String.append a b) eqn:E; [|reflexivity].
  destruct a; simpl in E; [contradiction | discriminate].
Qed.

Lemma endsWith_last (name suffix : string) :
  suffix <> EmptyString -> JS.endsWith name suffix = true ->
  JSString.last name = JSString.last suffix.
Proof.
  intros N E. destruct (endsWith_split _ _ E) as [pre ->].
  now apply last_append.
Qed.

Lemma map_then_last (name : string) :
  isMapOutputFile name = true -> JSString.last name = Some "p"%char.
Proof. intro E. now rewrite (endsWith_last name ".map"). Qed.

Lemma declaration_then_last (name : string) :
  isDeclarationOutputFile name = true -> JSString.last name = Some "s"%char.
Proof.
  unfold isDeclarationOutputFile. rewrite !orb_true_iff.
  intros [[E|E]|E].
  - now rewrite (endsWith_last name ".d.ts").
  - now rewrite (endsWith_last name ".d.cts").
  - now rewrite (endsWith_last name ".d.mts").
Qed.

(** X1: the three tests of outputFile.ts split the names into three classes:
    no name is both a source map and a declaration, so every name is exactly
    one of code, source map and declaration. *)
Theorem output_kinds_partition (name : string) :
  (isCodeOutputFile name = true /\ isMapOutputFile name = false
   /\ isDeclarationOutputFile name = false)
  \/ (isCodeOutputFile name = false /\ isMapOutputFile name = true
      /\ isDeclarationOutputFile name = false)
  \/ (isCodeOutputFile name = false /\ isMapOutputFile name = false
      /\ isDeclarationOutputFile name = true).
Proof.
  unfold isCodeOutputFile.
  destruct (isMapOutputFile name) eqn:M;
    destruct (isDeclarationOutputFile name) eqn:D; simpl; auto.
  apply map_then_last in M. apply declaration_then_last in D.
  rewrite M in D. discriminate.
Qed.

(** X2: a TypeScript source map (a name ending in [ts.map]) is always a
    source map and never code or a declaration, and the map of any
    declaration, whatever its flavour ([.d.ts], [.d.cts], [.d.mts]), is a
    TypeScript source map. *)
Theorem typescript_maps_are_maps :
  (forall name,
      isTypeScriptMapOutputFile name = true ->
      isMapOutputFile name = true
      /\ isCodeOutputFile name = false
      /\ isDeclarationOutputFile name = false)
  /\ (forall d,
         isDeclarationOutputFile d = true ->
         isTypeScriptMapOutputFile (String.append d ".map") = true).
Proof.
  split.
  - intros name T.
    assert (M : isMapOutputFile name = true).
    { unfold isMapOutputFile. apply (endsWith_trans name "ts.map" ".map").
      - exact T.
      - reflexivity. }
    destruct (output_kinds_partition name) as [(_ & F & _)|[H|(_ & F & _)]];
      try congruence.
    destruct H as (H1 & _ & H3). auto.
  - intros d D. unfold isDeclarationOutputFile in D.
    rewrite !orb_true_iff in D. unfold isTypeScriptMapOutputFile.
    destruct D as [[E|E]|E]; destruct (endsWith_split _ _ E) as [pre ->];
      rewrite append_assoc.
    + change (String.append ".d.ts" ".map")
        with (String.append ".d." "ts.map").
      rewrite <- append_assoc. apply endsWith_append.
    + change (String.append ".d.cts" ".map")
        with (String.append ".d.c" "ts.map").
      rewrite <- append_assoc. apply endsWith_append.
    + change (String.append ".d.mts" ".map")
        with (String.append ".d.m" "ts.map").
      rewrite <- append_assoc. apply endsWith_append.
Qed.


(** ** Path normalisation *)

Lemma split_nonempty (sep : ascii) (s : string) : JSString.split sep s <> [].
Proof.
  destruct s as [|c s]; simpl; [discriminate|].
  destruct (Ascii.eqb c sep); [discriminate|].
  destruct (JSString.split sep s); discriminate.
Qed.

Lemma join_cons_char (by_ : string) (c : ascii) (piece : string)
      (pieces : list string) :
  JSString.join by_ (String c piece :: pieces)
  = String c (JSString.join by_ (piece :: pieces)).
Proof. destruct pieces; reflexivity. Qed.

Lemma join_cons_empty (by_ x : string) (xs : list string) :
  JSString.join by_ (EmptyString :: x :: xs)
  = String.append by_ (JSString.join by_ (x :: xs)).
Proof. reflexivity. Qed.

(** Splitting and joining with the same separator gives the string back. *)
Lemma join_split (sep : ascii) (s : string) :
  JSString.join (String sep EmptyString) (JSString.split sep s) = s.
Proof.
  induction s as [|c s IH]; [reflexivity|].
  cbn [JSString.split]. destruct (Ascii.eqb c sep) eqn:E.
  - apply Ascii.eqb_eq in E. subst c.
    destruct (JSString.split sep s) as [|x xs] eqn:S;
      [now apply split_nonempty in S|].
    rewrite join_cons_empty, IH. reflexivity.
  - destruct (JSString.split sep s) as [|x xs] eqn:S;
      [now apply split_nonempty in S|].
    rewrite join_cons_char. now rewrite IH.
Qed.

(** X4: the two path normalisers of the repository agree on every file
    name: splitting at backslashes and joining with slashes (outputFile.ts)
    gives the same string as the global replacement of the stand-alone
    normaliser, which is the character-wise replacement used by [onLoad]. *)
Theorem normalizers_agree (fileName : string) :
  NormalizePath.viaSplitJoin fileName = NormalizePath.viaRegExp fileName
  /\ NormalizePath.viaSplitJoin fileName = normalizePath fileName.
Proof.
  assert (E : NormalizePath.viaSplitJoin fileName = normalizePath fileName).
  { unfold NormalizePath.viaSplitJoin, normalizePath.
    induction fileName as [|c s IH]; [reflexivity|].
    cbn [JSString.split JS.replaceAll].
    destruct (Ascii.eqb c "092") eqn:B.
    - destruct (JSString.split "092" s) as [|x xs] eqn:S;
        [now apply split_nonempty in S|].
      rewrite join_cons_empty, IH. reflexivity.
    - destruct (JSString.split "092" s) as [|x xs] eqn:S;
        [now apply split_nonempty in S|].
      rewrite join_cons_char. now rewrite IH. }
  split; exact E.
Qed.

Lemma normalizePath_fixes (fileName : string) :
  JSString.occurs "092" fileName = false -> normalizePath fileName = fileName.
Proof.
  unfold normalizePath. induction fileName as [|c s IH]; [reflexivity|].
  cbn [JS.replaceAll JSString.occurs]. intro E.
  apply orb_false_iff in E. destruct E as [B E].
  rewrite B, (IH E). reflexivity.
Qed.

(** X5: a normalized path contains no backslash and has the length of the
    original; normalizing leaves a path without backslashes as it is, and
    so normalizing twice is the same as normalizing once. *)
Theorem normalizePath_canonical (fileName : string) :
  JSString.occurs "092" (normalizePath fileName) = false
  /\ String.length (normalizePath fileName) = String.length fileName
  /\ (JSString.occurs "092" fileName = false ->
      normalizePath fileName = fileName)
  /\ normalizePath (normalizePath fileName) = normalizePath fileName.
Proof.
  split; [apply normalizePath_no_backslash|].
  split; [|split].
  - unfold normalizePath. induction fileName as [|c s IH]; [reflexivity|].
    cbn [JS.replaceAll String.length]. now rewrite IH.
  - apply normalizePath_fixes.
  - apply normalizePath_fixes, normalizePath_no_backslash.
Qed.

(** * Further properties of the hooks *)

Lemma keys_set (k v k' : string) (m : StrMap.t) :
  In k' (StrMap.keys (StrMap.set k v m)) <-> k' = k \/ In k' (StrMap.keys m).
Proof.
  unfold StrMap.keys. induction m as [|[k0 v0] m IH]; simpl.
  - intuition.
  - destruct (k0 =? k)%string eqn:E; simpl.
    + apply String.eqb_eq in E. subst k0. intuition.
    + rewrite IH. intuition.
Qed.

Lemma keys_set_NoDup (k v : string) (m : StrMap.t) :
  NoDup (StrMap.keys m) -> NoDup (StrMap.keys (StrMap.set k v m)).
Proof.
  induction m as [|[k0 v0] m IH]; simpl; intro N.
  - constructor; [intros [] | constructor].
  - inversion N as [|? ? Hn N']; subst.
    destruct (k0 =? k)%string eqn:E; simpl.
    + apply String.eqb_eq in E. subst k0. now constructor.
    + constructor; [|now apply IH].
      intro Hin. apply (keys_set k v k0 m) in Hin.
      destruct Hin as [->|Hin]; [|contradiction].
      now rewrite String.eqb_refl in E.
Qed.

Lemma emittedAfter_NoDup hs : forall m,
  NoDup (StrMap.keys m) -> NoDup (StrMap.keys (emittedAfter hs m)).
Proof.
  unfold emittedAfter. induction hs as [|h hs IH]; intros m N; simpl.
  - exact N.
  - apply IH. destruct h; try exact N. now apply keys_set_NoDup.
Qed.

Lemma get_emittedAfter (f : string) hs : forall m,
  StrMap.get f (emittedAfter hs m)
  = match lastWrite f hs with
    | Some data => Some data
    | None => StrMap.get f m
    end.
Proof.
  unfold emittedAfter. induction hs as [|h hs IH]; intro m; simpl.
  - reflexivity.
  - rewrite IH. destruct (lastWrite f hs); [reflexivity|].
    destruct h; try reflexivity.
    destruct (fileName =? f)%string eqn:E.
    + apply String.eqb_eq in E. subst. apply get_set_same.
    + apply get_set_other. apply String.eqb_neq in E. congruence.
Qed.

Section MorePluginProperties.

Context {C H : Type} {cacheOps : TSCacheOps C} {helperOps : WatchHelperOps H}
        {host : Host}.

Local Abbreviation State := (PluginState C H).

Lemma hook_emittedFiles h (st : State) :
  emittedFiles (hook h st) = emittedAfter [h] (emittedFiles st).
Proof.
  destruct h; simpl; try reflexivity.
  - apply onStart_stores.
  - unfold onLoad. destruct (negb (filter path)); reflexivity.
  - unfold onDispose. destruct (program st); reflexivity.
  - apply report_emittedFiles.
Qed.

Lemma hooks_emittedFiles hs : forall st : State,
  emittedFiles (hooks hs st) = emittedAfter hs (emittedFiles st).
Proof.
  unfold hooks, emittedAfter.
  induction hs as [|h hs IH]; intro st; simpl; [reflexivity|].
  rewrite IH, hook_emittedFiles. reflexivity.
Qed.

(** X6: whatever callbacks run, the emitted-files map holds for each file
    name the data of the latest [writeFile] call for it, and the entry it
    had before when there was no such call; an entry is never removed. *)
Theorem store_holds_latest_write (st : State) (hs : list Hook) (f : string) :
  StrMap.get f (emittedFiles (hooks hs st))
  = match lastWrite f hs with
    | Some data => Some data
    | None => StrMap.get f (emittedFiles st)
    end
  /\ (StrMap.has f (emittedFiles st) = true ->
      StrMap.has f (emittedFiles (hooks hs st)) = true).
Proof.
  assert (E := get_emittedAfter f hs (emittedFiles st)).
  rewrite <- hooks_emittedFiles in E. split; [exact E|].
  unfold StrMap.has. rewrite E.
  destruct (lastWrite f hs); [reflexivity|]. auto.
Qed.

(** X7: once the compiler has written the code file of a path, a load of
    that path returns the data of the latest write, together with the
    messages pending at that moment, whatever the disk cache holds. *)
Theorem load_returns_latest_emission
        (st : State) (hs : list Hook) (path f data : string) :
  filter path = true ->
  f <> "" ->
  lastWrite f hs = Some data ->
  codeFile (getOutputFileNames
              (parsedOptions (snd (onLoad path (hooks hs st)))) path)
  = Some f ->
  fst (onLoad path (hooks hs st))
  = Some {| contents := data;
            resultErrors := errors (hooks hs st);
            resultWarnings := warnings (hooks hs st) |}.
Proof.
  intros F N W Cf. apply onLoad_attaches_messages; [exact F|].
  unfold findTypescriptOutput. cbn [code]. rewrite Cf.
  unfold getEmittedFile, JS.truthyString, StrMap.has.
  apply String.eqb_neq in N. rewrite N. cbn [negb].
  destruct (store_holds_latest_write st hs f) as [E _].
  rewrite W in E. now rewrite E.
Qed.

(** X8: the keys of the emitted-files map stay pairwise distinct, so the
    end hook visits no file twice. *)
Theorem end_enumeration_without_repeats
        (parsed : ParsedCommandLine) (cache : C) (helper : H)
        (hs : list Hook) :
  NoDup (StrMap.keys
           (emittedFiles (hooks hs (typescript parsed cache helper))))
  /\ NoDup (declarationAndTypeScriptMapFiles
              (hooks hs (typescript parsed cache helper))).
Proof.
  assert (N : NoDup (StrMap.keys
                       (emittedFiles
                          (hooks hs (typescript parsed cache helper))))).
  { rewrite hooks_emittedFiles. apply emittedAfter_NoDup. constructor. }
  split; [exact N|].
  unfold declarationAndTypeScriptMapFiles. now apply NoDup_filter.
Qed.

(** ** Pending messages *)

Lemma reportAll_messages rs : forall st : State,
  errors (reportAll rs st) = errors st ++ errorsOf rs
  /\ warnings (reportAll rs st) = warnings st ++ warningsOf rs.
Proof.
  unfold reportAll. induction rs as [|r rs IH]; intro st; simpl.
  - now rewrite !app_nil_r.
  - destruct (IH (report r st)) as [E W]. rewrite E, W.
    destruct r; simpl; rewrite <- ?app_assoc; split; reflexivity.
Qed.

Lemma onLoad_result_messages path (st : State) r :
  fst (onLoad path st) = Some r ->
  resultErrors r = errors st /\ resultWarnings r = warnings st.
Proof.
  unfold onLoad. destruct (negb (filter path)); [discriminate|].
  unfold onLoad_resume. cbn [fst].
  match goal with |- context [code ?o] => destruct (code o) end;
    [|discriminate].
  intro R. injection R as <-. split; reflexivity.
Qed.


Lemma onStart_messages build (st : State) :
  exists es ws,
    errors (onStart build st) = errors st ++ es
    /\ warnings (onStart build st) = warnings st ++ ws.
Proof.
  unfold onStart. cbv zeta.
  repeat match goal with
         | |- context [reportAll ?rs ?s] =>
             let E := fresh "E" in
             let W := fresh "W" in
             destruct (reportAll_messages rs s) as [E W];
             rewrite ?E, ?W; clear E W
         end.
  destruct (program _); simpl;
    repeat match goal with
           | |- context [reportAll ?rs ?s] =>
               let E := fresh "E" in
               let W := fresh "W" in
               destruct (reportAll_messages rs s) as [E W];
               rewrite ?E, ?W; clear E W
           end;
    rewrite <- !app_assoc; eauto.
Qed.

(** X10: pending messages are only ever taken away by a load that passes
    the inclusion filter: as long as every load is for an excluded path,
    the callbacks can only add to [errors] and [warnings]. *)
Theorem messages_kept_until_accepted_load (hs : list Hook) : forall st : State,
  onlyExcludedLoads hs = true ->
  exists es ws,
    errors (hooks hs st) = errors st ++ es
    /\ warnings (hooks hs st) = warnings st ++ ws.
Proof.
  unfold hooks, onlyExcludedLoads.
  induction hs as [|h hs IH]; intros st X; simpl in *.
  - exists [], []. now rewrite !app_nil_r.
  - apply andb_true_iff in X. destruct X as [Xh X].
    destruct (IH (hook h st) X) as (es2 & ws2 & E2 & W2).
    assert (S : exists es1 ws1,
               errors (hook h st) = errors st ++ es1
               /\ warnings (hook h st) = warnings st ++ ws1).
    { destruct h; simpl;
        try (exists [], []; rewrite !app_nil_r; split; reflexivity).
      - apply onStart_messages.
      - unfold onLoad. rewrite Xh.
        exists [], []. now rewrite !app_nil_r.
      - exists [], []. rewrite !app_nil_r. unfold onDispose.
        destruct (program st); split; reflexivity.
      - destruct r; simpl; eexists; eexists; split;
          try reflexivity; now rewrite app_nil_r. }
    destruct S as (es1 & ws1 & E1 & W1).
    exists (es1 ++ es2), (ws1 ++ ws2).
    rewrite E2, W2, E1, W1, !app_assoc. split; reflexivity.
Qed.

(** ** Disposal *)

Lemma closeAt_closes i : forall ws,
  i < length ws -> nth_error (closeAt i ws) i = Some {| closed := true |}.
Proof.
  induction i as [|i IH]; intros [|w ws] L; simpl in *; try lia.
  - reflexivity.
  - apply IH. lia.
Qed.

(** Each hook keeps the reference and the number of instances once a
    program exists, and keeps a closed instance closed. *)
Lemma hook_keeps_closed h (st : State) i :
  program st = Some i ->
  nth_error (watchPrograms st) i = Some {| closed := true |} ->
  program (hook h st) = Some i
  /\ nth_error (watchPrograms (hook h st)) i = Some {| closed := true |}
  /\ length (watchPrograms (hook h st)) = length (watchPrograms st).
Proof.
  intros P N. destruct h; simpl.
  - destruct (onStart_wakes build st i P) as (-> & -> & _). auto.
  - unfold onLoad. destruct (negb (filter path)); [auto|].
    unfold onLoad_resume; simpl. auto.
  - auto.
  - unfold onDispose. rewrite P. simpl. rewrite closeAt_length.
    repeat split; try reflexivity.
    apply closeAt_closes. apply nth_error_Some. congruence.
  - auto.
  - auto.
  - rewrite report_program, report_watchPrograms. auto.
Qed.

Lemma hooks_keep_closed hs i : forall st : State,
  program st = Some i ->
  nth_error (watchPrograms st) i = Some {| closed := true |} ->
  program (hooks hs st) = Some i
  /\ nth_error (watchPrograms (hooks hs st)) i = Some {| closed := true |}
  /\ length (watchPrograms (hooks hs st)) = length (watchPrograms st).
Proof.
  unfold hooks. induction hs as [|h hs IH]; intros st P N; simpl.
  - auto.
  - destruct (hook_keeps_closed h st i P N) as (P2 & N2 & L2).
    destruct (IH (hook h st) P2 N2) as (P3 & N3 & L3).
    repeat split; try assumption. congruence.
Qed.

(** X11: disposal is final.  After the dispose hook has closed the watch
    program, no later callback reopens it, replaces it or creates another
    one: a start hook that follows only calls the helper. *)
Theorem disposed_program_stays_closed
        (st : State) (hs : list Hook) (i : nat) :
  program st = Some i ->
  i < length (watchPrograms st) ->
  program (hooks (HDispose :: hs) st) = Some i
  /\ nth_error (watchPrograms (hooks (HDispose :: hs) st)) i
     = Some {| closed := true |}
  /\ length (watchPrograms (hooks (HDispose :: hs) st))
     = length (watchPrograms st).
Proof.
  intros P L.
  assert (I : program (onDispose st) = Some i
              /\ nth_error (watchPrograms (onDispose st)) i
                 = Some {| closed := true |}
              /\ length (watchPrograms (onDispose st))
                 = length (watchPrograms st)).
  { unfold onDispose. rewrite P. simpl. rewrite closeAt_length.
    repeat split; try reflexivity. now apply closeAt_closes. }
  destruct I as (P1 & N1 & L1).
  change (hooks (HDispose :: hs) st) with (hooks hs (onDispose st)).
  destruct (hooks_keep_closed hs i (onDispose st) P1 N1) as (P2 & N2 & L2).
  repeat split; try assumption. congruence.
Qed.

(** ** The file list *)

Lemma hook_fileNames_members h (st : State) (name : string) :
  In name (fileNames (parsedOptions (hook h st)))
  <-> In name (fileNames (parsedOptions st))
      \/ exists path,
          h = HLoad path /\ filter path = true
          /\ name = normalizePath path.
Proof.
  assert (Same : fileNames (parsedOptions (hook h st))
                 = fileNames (parsedOptions st) ->
                 (forall path, h = HLoad path -> filter path = true ->
                               In (normalizePath path)
                                  (fileNames (parsedOptions st))) ->
                 In name (fileNames (parsedOptions (hook h st)))
                 <-> In name (fileNames (parsedOptions st))
                     \/ exists path,
                         h = HLoad path /\ filter path = true
                         /\ name = normalizePath path).
  { intros -> K. split; [auto|].
    intros [Hin|(path & -> & F & ->)]; [exact Hin | now apply (K path)]. }
  destruct h; simpl;
    try (apply Same; [reflexivity | discriminate]).
  - apply Same; [|discriminate]. simpl. now rewrite onStart_parsedOptions.
  - unfold onLoad. destruct (filter path) eqn:F; cbn [negb snd].
    + rewrite onLoad_resume_fileNames.
      destruct (JS.includes _ _) eqn:I.
      * apply includes_In in I. split; [auto|].
        intros [Hin|(p & E & _ & ->)]; [exact Hin|].
        injection E as <-. exact I.
      * rewrite in_app_iff. simpl. split.
        -- intros [Hin|[<-|[]]]; [auto|]. right. exists path. auto.
        -- intros [Hin|(p & E & _ & ->)]; [auto|].
           injection E as <-. auto.
    + split; [auto|].
      intros [Hin|(p & E & Fp & _)]; [exact Hin|].
      injection E as <-. congruence.
  - apply Same; [|discriminate]. simpl.
    unfold onDispose. destruct (program st); reflexivity.
  - apply Same; [|discriminate]. simpl. now rewrite report_parsedOptions.
Qed.

Lemma hooks_fileNames_members hs : forall (st : State) (name : string),
  In name (fileNames (parsedOptions (hooks hs st)))
  <-> In name (fileNames (parsedOptions st))
      \/ exists path,
          In (HLoad path) hs /\ filter path = true
          /\ name = normalizePath path.
Proof.
  unfold hooks. induction hs as [|h hs IH]; intros st name; simpl.
  - split; [auto|]. intros [Hin|(p & [] & _)]. exact Hin.
  - rewrite IH, hook_fileNames_members. split.
    + intros [[Hin|(p & E0 & F & E)]|(p & Hin & F & E)]; eauto 7.
    + intros [Hin|(p & [E0|Hin] & F & E)]; eauto 7.
Qed.

End MorePluginProperties.

(** ** Source maps at the start hook *)

(** X13: the factory's rewrite of the source-map options does not change
    what [validateSourceMap] reports; with [sourceMap] on in the
    configuration, the start hook warns exactly when esbuild's [sourcemap]
    is off and the option was not set by the plugin itself, and it never
    asks for the TypeScript option to be set. *)
Theorem validateSourceMap_after_rewrite
        (o : CompilerOptions) (build : BuildOptions) (autoSet : bool) :
  validateSourceMap (rewriteSourceMap o) build autoSet
  = validateSourceMap o build autoSet
  /\ (JS.truthy (sourceMap o) = true ->
      validateSourceMap (rewriteSourceMap o) build autoSet
      = if negb (sourcemap build) && negb autoSet
        then [ReportWarn sourcemapMissingInEsbuild]
        else []).
Proof.
  unfold rewriteSourceMap, validateSourceMap.
  destruct (JS.truthy (sourceMap o)) eqn:T; simpl; rewrite ?T; simpl.
  - split; [reflexivity | intros _].
    destruct (sourcemap build), autoSet; reflexivity.
  - split; [reflexivity | discriminate].
Qed.

(** ** The hook properties on concrete inputs *)

Lemma load_returns_latest_emission_witness :
  @filter Sample.host "src/a.ts" = true
  /\ "src/a.js" <> ""
  /\ lastWrite "src/a.js"
       [HWriteFile "src/a.js" "let a = 1;"; HReport (ReportWarn Sample.typeError);
        HWriteFile "src/a.js" "let a = 2;"] = Some "let a = 2;"
  /\ codeFile
       (@getOutputFileNames Sample.host
          (parsedOptions
             (snd (@onLoad _ _ Sample.cache Sample.host "src/a.ts"
                     (@hooks _ _ Sample.cache _ Sample.host
                        [HWriteFile "src/a.js" "let a = 1;";
                         HReport (ReportWarn Sample.typeError);
                         HWriteFile "src/a.js" "let a = 2;"]
                        Sample.fresh))))
          "src/a.ts") = Some "src/a.js"
  /\ fst (@onLoad _ _ Sample.cache Sample.host "src/a.ts"
            (@hooks _ _ Sample.cache _ Sample.host
               [HWriteFile "src/a.js" "let a = 1;";
                HReport (ReportWarn Sample.typeError);
                HWriteFile "src/a.js" "let a = 2;"]
               Sample.fresh))
     = Some {| contents := "let a = 2;";
               resultErrors :=
                 errors (@hooks _ _ Sample.cache _ Sample.host
                           [HWriteFile "src/a.js" "let a = 1;";
                            HReport (ReportWarn Sample.typeError);
                            HWriteFile "src/a.js" "let a = 2;"]
                           Sample.fresh);
               resultWarnings :=
                 warnings (@hooks _ _ Sample.cache _ Sample.host
                             [HWriteFile "src/a.js" "let a = 1;";
                              HReport (ReportWarn Sample.typeError);
                              HWriteFile "src/a.js" "let a = 2;"]
                             Sample.fresh) |}.
Proof.
  split; [reflexivity|]. split; [discriminate|].
  split; [reflexivity|]. split; [reflexivity|].
  apply (@load_returns_latest_emission _ _ Sample.cache _ Sample.host
           Sample.fresh
           [HWriteFile "src/a.js" "let a = 1;";
            HReport (ReportWarn Sample.typeError);
            HWriteFile "src/a.js" "let a = 2;"]
           "src/a.ts" "src/a.js" "let a = 2;").
  - reflexivity.
  - discriminate.
  - reflexivity.
  - reflexivity.
Defined.


Lemma messages_kept_until_accepted_load_witness :
  @onlyExcludedLoads Sample.host
    [HReport (ReportError Sample.typeError); HLoad "vendor/lib.ts";
     HStart Sample.build; HLoad "vendor/dep.ts"] = true
  /\ exists es ws,
      errors (@hooks _ _ Sample.cache _ Sample.host
                [HReport (ReportError Sample.typeError);
                 HLoad "vendor/lib.ts"; HStart Sample.build;
                 HLoad "vendor/dep.ts"]
                Sample.failedPass)
      = errors Sample.failedPass ++ es
      /\ warnings (@hooks _ _ Sample.cache _ Sample.host
                     [HReport (ReportError Sample.typeError);
                      HLoad "vendor/lib.ts"; HStart Sample.build;
                      HLoad "vendor/dep.ts"]
                     Sample.failedPass)
         = warnings Sample.failedPass ++ ws.
Proof.
  split; [reflexivity|].
  apply (@messages_kept_until_accepted_load _ _ Sample.cache _ Sample.host
           [HReport (ReportError Sample.typeError); HLoad "vendor/lib.ts";
            HStart Sample.build; HLoad "vendor/dep.ts"]
           Sample.failedPass).
  reflexivity.
Defined.

Lemma disposed_program_stays_closed_witness :
  program (@onStart _ _ _ Sample.host Sample.build Sample.fresh)
  = Some 0
  /\ 0 < length (watchPrograms
                   (@onStart _ _ _ Sample.host Sample.build
                             Sample.fresh))
  /\ (program
        (@hooks _ _ Sample.cache _ Sample.host
           [HDispose; HStart Sample.build; HLoad "src/a.ts"]
           (@onStart _ _ _ Sample.host Sample.build
                     Sample.fresh))
      = Some 0
      /\ nth_error
           (watchPrograms
              (@hooks _ _ Sample.cache _ Sample.host
                 [HDispose; HStart Sample.build; HLoad "src/a.ts"]
                 (@onStart _ _ _ Sample.host Sample.build
                           Sample.fresh)))
           0
         = Some {| closed := true |}
      /\ length
           (watchPrograms
              (@hooks _ _ Sample.cache _ Sample.host
                 [HDispose; HStart Sample.build; HLoad "src/a.ts"]
                 (@onStart _ _ _ Sample.host Sample.build
                           Sample.fresh)))
         = length (watchPrograms
                     (@onStart _ _ _ Sample.host Sample.build
                               Sample.fresh))).
Proof.
  split; [reflexivity|]. split; [simpl; lia|].
  apply (@disposed_program_stays_closed _ _ Sample.cache _ Sample.host
           (@onStart _ _ _ Sample.host Sample.build Sample.fresh)
           [HStart Sample.build; HLoad "src/a.ts"] 0).
  - reflexivity.
  - simpl; lia.
Defined.

(** * Properties of the option helpers *)

Lemma obj_get_set_same (k : string) (v : Options.Value) (o : Options.Obj) :
  Options.get k (Options.set k v o) = Some v.
Proof.
  induction o as [|[k' v'] o IH]; simpl.
  - now rewrite String.eqb_refl.
  - destruct (k' =? k)%string eqn:E; simpl.
    + now rewrite String.eqb_refl.
    + now rewrite E.
Qed.

Lemma obj_get_set_other (k k' : string) (v : Options.Value)
      (o : Options.Obj) :
  k' <> k -> Options.get k' (Options.set k v o) = Options.get k' o.
Proof.
  intro N. induction o as [|[k0 v0] o IH]; simpl.
  - destruct (k =? k')%string eqn:E; [|reflexivity].
    apply String.eqb_eq in E. congruence.
  - destruct (k0 =? k)%string eqn:E; simpl.
    + apply String.eqb_eq in E. subst k0.
      destruct (k =? k')%string eqn:E'; [|reflexivity].
      apply String.eqb_eq in E'. congruence.
    + now rewrite IH.
Qed.

Lemma obj_get_none (k : string) (o : Options.Obj) :
  ~ In k (Options.keys o) -> Options.get k o = None.
Proof.
  induction o as [|[k' v'] o IH]; simpl; intro N; [reflexivity|].
  destruct (k' =? k)%string eqn:E.
  - apply String.eqb_eq in E. tauto.
  - apply IH. tauto.
Qed.

(** Copying an object with distinct keys onto another: the copied
    properties win, the others stay. *)
Lemma obj_get_assign (k : string) (source : Options.Obj) :
  NoDup (Options.keys source) ->
  forall target,
    Options.get k (Options.assign target source)
    = match Options.get k source with
      | Some v => Some v
      | None => Options.get k target
      end.
Proof.
  unfold Options.assign.
  induction source as [|[k0 v0] source IH]; simpl; intros N target.
  - reflexivity.
  - inversion N as [|? ? Hn N']; subst. rewrite (IH N').
    destruct (k0 =? k)%string eqn:E.
    + apply String.eqb_eq in E. subst k0.
      rewrite (obj_get_none k source Hn). apply obj_get_set_same.
    + destruct (Options.get k source); [reflexivity|].
      apply obj_get_set_other. apply String.eqb_neq in E. congruence.
Qed.

Lemma obj_get_restOf (names : list string) (k : string) (o : Options.Obj) :
  Options.get k (Options.restOf names o)
  = if JS.includes names k then None else Options.get k o.
Proof.
  unfold Options.restOf. induction o as [|[k' v'] o IH]; simpl.
  - now destruct (JS.includes names k).
  - destruct (JS.includes names k') eqn:I; simpl.
    + rewrite IH. destruct (k' =? k)%string eqn:E; [|reflexivity].
      apply String.eqb_eq in E. subst k'. now rewrite I.
    + rewrite IH. destruct (k' =? k)%string eqn:E; [|reflexivity].
      apply String.eqb_eq in E. subst k'. now rewrite I.
Qed.

Lemma restOf_NoDup (names : list string) (o : Options.Obj) :
  NoDup (Options.keys o) -> NoDup (Options.keys (Options.restOf names o)).
Proof.
  unfold Options.restOf, Options.keys.
  induction o as [|[k' v'] o IH]; simpl; intro N; [constructor|].
  inversion N as [|? ? Hn N']; subst.
  destruct (negb (JS.includes names k')); simpl; [|now apply IH].
  constructor; [|now apply IH].
  intro Hin. apply Hn. apply in_map_iff in Hin.
  destruct Hin as [[k v] [<- Hin]]. apply filter_In in Hin.
  apply in_map_iff. exists (k, v). tauto.
Qed.

(** X14: the compiler options returned by [getPluginOptions] give each name
    the value found inside [compilerOptions] when there is one, and
    otherwise the value given at the top level, except for the plugin's own
    option names, which are never taken from the top level; and the
    returned [typescript] is truthy whenever the default module is. *)
Theorem getPluginOptions_merges_compilerOptions
        (defaultTs tsLibPath : Options.Value) (options : Options.Obj)
        (k : string) :
  NoDup (Options.keys options) ->
  NoDup (Options.keys
           (Options.ownProps (Options.prop "compilerOptions" options))) ->
  Options.get k
    (Options.compilerOptions
       (Options.getPluginOptions defaultTs tsLibPath options))
  = match Options.get k
            (Options.ownProps (Options.prop "compilerOptions" options)) with
    | Some v => Some v
    | None =>
        if JS.includes Options.pluginKeys k then None
        else Options.get k options
    end
  /\ (Options.truthy defaultTs = true ->
      Options.truthy
        (Options.typescript
           (Options.getPluginOptions defaultTs tsLibPath options)) = true).
Proof.
  intros N1 N2. split.
  - cbn [Options.getPluginOptions Options.compilerOptions].
    unfold Options.spread2.
    rewrite (obj_get_assign k _ N2).
    destruct (Options.get k (Options.ownProps _)); [reflexivity|].
    rewrite (obj_get_assign k _ (restOf_NoDup Options.pluginKeys _ N1)).
    rewrite obj_get_restOf.
    destruct (JS.includes Options.pluginKeys k); [reflexivity|].
    now destruct (Options.get k options).
  - intro T. cbn [Options.getPluginOptions Options.typescript].
    unfold Options.or_.
    destruct (Options.truthy (Options.prop "typescript" options)) eqn:E;
      assumption.
Qed.

Lemma getPluginOptions_merges_compilerOptions_witness :
  NoDup (Options.keys
           [("include", Options.VString "src/**");
            ("target", Options.VString "es5");
            ("strict", Options.VBool true);
            ("compilerOptions",
             Options.VObject [("target", Options.VString "es2020")])])
  /\ NoDup (Options.keys
              (Options.ownProps
                 (Options.prop "compilerOptions"
                    [("include", Options.VString "src/**");
                     ("target", Options.VString "es5");
                     ("strict", Options.VBool true);
                     ("compilerOptions",
                      Options.VObject
                        [("target", Options.VString "es2020")])])))
  /\ (Options.get "target"
        (Options.compilerOptions
           (Options.getPluginOptions (Options.VOther 0) (Options.VString "tslib")
              [("include", Options.VString "src/**");
               ("target", Options.VString "es5");
               ("strict", Options.VBool true);
               ("compilerOptions",
                Options.VObject [("target", Options.VString "es2020")])]))
      = match Options.get "target"
                (Options.ownProps
                   (Options.prop "compilerOptions"
                      [("include", Options.VString "src/**");
                       ("target", Options.VString "es5");
                       ("strict", Options.VBool true);
                       ("compilerOptions",
                        Options.VObject
                          [("target", Options.VString "es2020")])])) with
        | Some v => Some v
        | None =>
            if JS.includes Options.pluginKeys "target" then None
            else Options.get "target"
                   [("include", Options.VString "src/**");
                    ("target", Options.VString "es5");
                    ("strict", Options.VBool true);
                    ("compilerOptions",
                     Options.VObject [("target", Options.VString "es2020")])]
        end
      /\ (Options.truthy (Options.VOther 0) = true ->
          Options.truthy
            (Options.typescript
               (Options.getPluginOptions (Options.VOther 0)
                  (Options.VString "tslib")
                  [("include", Options.VString "src/**");
                   ("target", Options.VString "es5");
                   ("strict", Options.VBool true);
                   ("compilerOptions",
                    Options.VObject
                      [("target", Options.VString "es2020")])]))
          = true)).
Proof.
  assert (N1 : NoDup ["include"; "target"; "strict"; "compilerOptions"]).
  { repeat constructor; simpl; intuition discriminate. }
  assert (N2 : NoDup ["target"]).
  { repeat constructor; simpl; intuition. }
  split; [exact N1|]. split; [exact N2|].
  apply (getPluginOptions_merges_compilerOptions
           (Options.VOther 0) (Options.VString "tslib")
           [("include", Options.VString "src/**");
            ("target", Options.VString "es5");
            ("strict", Options.VBool true);
            ("compilerOptions",
             Options.VObject [("target", Options.VString "es2020")])]
           "target"); [exact N1 | exact N2].
Defined.

(** ** The path checks *)

Section ValidatePathsProperties.

Context {nodePath : Options.NodePath}.

Variable DIRECTORY_PROPS : list string.

Lemma checkDirectory_messages compilerOptions outputOptions dirProperty m :
  In m (Options.checkDirectory compilerOptions outputOptions dirProperty) ->
  m = Options.notInsideDir dirProperty
  \/ m = Options.notBesideFile dirProperty.
Proof.
  unfold Options.checkDirectory.
  destruct (Options.outputDirOf outputOptions); [|intros []].
  destruct (_ && _); [|intros []].
  destruct (JS.truthyString (Options.outdir outputOptions)).
  - destruct (String.prefix _ _); [|intros []]. intros [<-|[]]. auto.
  - destruct (dirProperty =? "outDir")%string;
      (destruct (String.prefix _ _); [|intros []]); intros [<-|[]]; auto.
Qed.

(** X15: the containment checks need both sides: when no option of
    [DIRECTORY_PROPS] is set, or esbuild has neither an output directory nor
    an output file, [validatePaths] reports only the unsupported-option
    error and the missing-directory error, whatever the paths are. *)
Theorem validatePaths_without_directories
        (compilerOptions : Options.Obj)
        (outputOptions : Options.OutputOptions) :
  forallb (fun dirProperty =>
             negb (Options.truthy (Options.prop dirProperty compilerOptions)))
          DIRECTORY_PROPS = true
  \/ JS.truthyString (Options.outputDirOf outputOptions) = false ->
  Options.validatePaths DIRECTORY_PROPS compilerOptions outputOptions
  = Options.unsupportedOutputs compilerOptions
    ++ Options.declarationsWithoutDir DIRECTORY_PROPS compilerOptions.
Proof.
  intro Hyp. unfold Options.validatePaths. f_equal.
  assert (E : flat_map (Options.checkDirectory compilerOptions outputOptions)
                       DIRECTORY_PROPS = []).
  { destruct Hyp as [A|O].
    - induction DIRECTORY_PROPS as [|p ps IH]; [reflexivity|].
      simpl in A. apply andb_true_iff in A. destruct A as [Ap A].
      simpl. rewrite (IH A), app_nil_r.
      unfold Options.checkDirectory.
      destruct (Options.outputDirOf outputOptions); [|reflexivity].
      apply negb_true_iff in Ap. now rewrite Ap.
    - induction DIRECTORY_PROPS as [|p ps IH]; [reflexivity|].
      simpl. rewrite IH, app_nil_r.
      unfold Options.checkDirectory.
      destruct (Options.outputDirOf outputOptions); [|reflexivity].
      rewrite O, andb_false_r. reflexivity. }
  now rewrite E.
Qed.

(** X16: the missing-directory error is reported exactly when one of
    [declaration], [declarationMap] and [composite] is set and no option
    of [DIRECTORY_PROPS] is; no other check produces it. *)
Theorem validatePaths_declarations_need_directory
        (compilerOptions : Options.Obj)
        (outputOptions : Options.OutputOptions) :
  In Options.declarationNeedsDir
     (Options.validatePaths DIRECTORY_PROPS compilerOptions outputOptions)
  <-> (Options.truthy (Options.prop "declaration" compilerOptions)
       || Options.truthy (Options.prop "declarationMap" compilerOptions)
       || Options.truthy (Options.prop "composite" compilerOptions)) = true
      /\ forallb (fun dirProperty =>
                    negb (Options.truthy
                            (Options.prop dirProperty compilerOptions)))
                 DIRECTORY_PROPS = true.
Proof.
  unfold Options.validatePaths. rewrite !in_app_iff. split.
  - intros [U|[D|L]].
    + unfold Options.unsupportedOutputs in U.
      destruct (Options.truthy (Options.prop "out" compilerOptions));
        [destruct U as [U|[]]; discriminate|].
      destruct (Options.truthy (Options.prop "outFile" compilerOptions));
        [destruct U as [U|[]]; discriminate | destruct U].
    + apply in_flat_map in D. destruct D as (p & _ & D).
      apply checkDirectory_messages in D.
      destruct D as [D|D]; discriminate.
    + unfold Options.declarationsWithoutDir in L.
      destruct (_ || _); [|destruct L].
      destruct (forallb _ _); [auto | destruct L].
  - intros [A B]. right. right.
    unfold Options.declarationsWithoutDir. rewrite A, B. now left.
Qed.

End ValidatePathsProperties.

Lemma validatePaths_without_directories_witness :
  (forallb (fun dirProperty =>
              negb (Options.truthy
                      (Options.prop dirProperty
                         [("outDir", Options.VString "build");
                          ("declaration", Options.VBool true)])))
           ["outDir"; "declarationDir"] = true
   \/ JS.truthyString
        (@Options.outputDirOf PathSample.nodePath
           {| Options.outdir := None; Options.outfile := None |}) = false)
  /\ @Options.validatePaths PathSample.nodePath ["outDir"; "declarationDir"]
       [("outDir", Options.VString "build");
        ("declaration", Options.VBool true)]
       {| Options.outdir := None; Options.outfile := None |}
     = Options.unsupportedOutputs
         [("outDir", Options.VString "build");
          ("declaration", Options.VBool true)]
       ++ Options.declarationsWithoutDir ["outDir"; "declarationDir"]
            [("outDir", Options.VString "build");
             ("declaration", Options.VBool true)].
Proof.
  split; [right; reflexivity|].
  apply (@validatePaths_without_directories PathSample.nodePath
           ["outDir"; "declarationDir"]
           [("outDir", Options.VString "build");
            ("declaration", Options.VBool true)]
           {| Options.outdir := None; Options.outfile := None |}).
  right; reflexivity.
Defined.

(** * Properties of the diagnostic conversion *)

Lemma endsWith_refl (s : string) : JS.endsWith s s = true.
Proof. destruct s; cbn [JS.endsWith]; now rewrite String.eqb_refl. Qed.

Lemma drop_endsWith (n : nat) : forall s,
  JS.endsWith s (JSString.drop n s) = true.
Proof.
  induction n as [|n IH]; intros [|c s]; cbn [JSString.drop];
    try apply endsWith_refl.
  cbn [JS.endsWith]. rewrite IH. apply orb_true_r.
Qed.

Lemma slice_endsWith (s : string) (start : Z) :
  JS.endsWith s (JSString.slice s start) = true.
Proof.
  unfold JSString.slice. destruct (start <? 0)%Z; apply drop_endsWith.
Qed.

Lemma drop_append (a b : string) :
  JSString.drop (String.length a) (String.append a b) = b.
Proof. induction a as [|c a IH]; [now destruct b | exact IH]. Qed.

Lemma slice_append (a b : string) (start : Z) :
  start = Z.of_nat (String.length a) ->
  JSString.slice (String.append a b) start = b.
Proof.
  intros ->. unfold JSString.slice.
  destruct (Z.ltb_spec (Z.of_nat (String.length a)) 0) as [L|_]; [lia|].
  rewrite Nat2Z.id. apply drop_append.
Qed.

Lemma prefix_append (a b : string) : String.prefix a (String.append a b) = true.
Proof.
  induction a as [|c a IH]; simpl; [now destruct b|].
  destruct (ascii_dec c c); [exact IH | congruence].
Qed.

Lemma index_of_prefix (p s : string) :
  String.prefix p s = true -> String.index 0 p s = Some 0.
Proof.
  destruct s as [|c s]; simpl.
  - destruct p; [reflexivity | discriminate].
  - intro E. destruct p as [|a p]; [reflexivity|]. simpl in E.
    destruct (ascii_dec a c); now rewrite ?E.
Qed.

(** The frame is cut out of the formatted text: it is one of its
    suffixes. *)
Lemma codeFrame_suffix (formatted message newLine : string) :
  JS.endsWith formatted (Diagnostics.codeFrame formatted message newLine)
  = true.
Proof.
  unfold Diagnostics.codeFrame. cbv zeta.
  destruct (JSString.startsWith _ _).
  - eapply endsWith_trans; [|apply slice_endsWith]. apply slice_endsWith.
  - apply slice_endsWith.
Qed.

(** When the formatted text is a header, the message, one newline and the
    frame, and the message does not occur in the header, the frame is found
    exactly. *)
Lemma codeFrame_exact (header message newLine frame : string) :
  String.index 0 message
    (String.append header
       (String.append message (String.append newLine frame)))
  = Some (String.length header) ->
  Diagnostics.codeFrame
    (String.append header
       (String.append message (String.append newLine frame)))
    message newLine
  = frame.
Proof.
  intro I. unfold Diagnostics.codeFrame, JSString.indexOf. rewrite I.
  rewrite <- append_assoc.
  rewrite (slice_append (String.append header message)
             (String.append newLine frame))
    by (rewrite length_append; lia).
  cbv zeta. unfold JSString.startsWith. rewrite prefix_append.
  rewrite (index_of_prefix _ _ (prefix_append newLine frame)).
  apply slice_append. lia.
Qed.

Section DiagnosticsProperties.

Context {ts : Diagnostics.TypescriptApi}.

(** X17: a diagnostic without a file yields neither a location nor a
    detail; a location is one-based in line and column (the compiler's
    zero-based position plus one); and a detail is only produced with a
    host and is always a suffix of the text the compiler formatted. *)
Theorem diagnosticToWarning_location_and_detail
        (host : option Diagnostics.FormatDiagnosticsHost)
        (diagnostic : Diagnostics.Diagnostic) :
  (Diagnostics.file diagnostic = None ->
   Diagnostics.location (Diagnostics.diagnosticToWarning host diagnostic)
   = None
   /\ Diagnostics.detail (Diagnostics.diagnosticToWarning host diagnostic)
      = None)
  /\ (forall l,
         Diagnostics.location (Diagnostics.diagnosticToWarning host diagnostic)
         = Some l ->
         exists f,
           Diagnostics.file diagnostic = Some f
           /\ Diagnostics.line l
              = fst (Diagnostics.getLineAndCharacterOfPosition f
                       (Diagnostics.start diagnostic)) + 1
           /\ Diagnostics.column l
              = snd (Diagnostics.getLineAndCharacterOfPosition f
                       (Diagnostics.start diagnostic)) + 1
           /\ 1 <= Diagnostics.line l /\ 1 <= Diagnostics.column l)
  /\ (forall frame,
         Diagnostics.detail (Diagnostics.diagnosticToWarning host diagnostic)
         = Some frame ->
         exists h,
           host = Some h
           /\ Diagnostics.file diagnostic <> None
           /\ JS.endsWith
                (Diagnostics.formatDiagnosticsWithColorAndContext
                   diagnostic h) frame = true).
Proof.
  unfold Diagnostics.diagnosticToWarning. cbv zeta.
  destruct (Diagnostics.file diagnostic) as [f|].
  - destruct (Diagnostics.getLineAndCharacterOfPosition f _) as [l0 c0] eqn:G.
    cbn. split; [discriminate|]. split.
    + intros l E. injection E as <-. exists f. rewrite G. cbn.
      repeat split; lia.
    + intros frame E. destruct host as [h|]; [|discriminate].
      injection E as <-. exists h.
      split; [reflexivity|]. split; [discriminate|].
      apply codeFrame_suffix.
  - cbn. split; [auto|]. split; intros ? E; discriminate.
Qed.

(** X18: when the formatted diagnostic consists of a header that does not
    contain the message, the message, the host's newline and a frame, the
    detail of the warning is exactly that frame. *)
Theorem diagnosticToWarning_extracts_frame
        (h : Diagnostics.FormatDiagnosticsHost)
        (diagnostic : Diagnostics.Diagnostic)
        (f : Diagnostics.SourceFile) (header frame : string) :
  Diagnostics.file diagnostic = Some f ->
  Diagnostics.formatDiagnosticsWithColorAndContext diagnostic h
  = String.append header
      (String.append (Diagnostics.flattenDiagnosticMessageText diagnostic)
         (String.append (Diagnostics.getNewLine h) frame)) ->
  String.index 0 (Diagnostics.flattenDiagnosticMessageText diagnostic)
    (Diagnostics.formatDiagnosticsWithColorAndContext diagnostic h)
  = Some (String.length header) ->
  Diagnostics.detail (Diagnostics.diagnosticToWarning (Some h) diagnostic)
  = Some frame.
Proof.
  intros F E I. unfold Diagnostics.diagnosticToWarning. cbv zeta.
  rewrite F.
  destruct (Diagnostics.getLineAndCharacterOfPosition f _) as [l0 c0].
  cbn. rewrite E in *. now rewrite codeFrame_exact.
Qed.

End DiagnosticsProperties.

Lemma diagnosticToWarning_extracts_frame_witness :
  Diagnostics.file PathSample.diagnostic = Some PathSample.sourceFile
  /\ @Diagnostics.formatDiagnosticsWithColorAndContext PathSample.typescriptApi
       PathSample.diagnostic {| Diagnostics.getNewLine := "; " |}
     = String.append "src/a.ts:1:7 - error TS2322: "
         (String.append
            (@Diagnostics.flattenDiagnosticMessageText PathSample.typescriptApi
               PathSample.diagnostic)
            (String.append
               (Diagnostics.getNewLine {| Diagnostics.getNewLine := "; " |})
               "; 1 const a: number = 'x';"))
  /\ String.index 0
       (@Diagnostics.flattenDiagnosticMessageText PathSample.typescriptApi
          PathSample.diagnostic)
       (@Diagnostics.formatDiagnosticsWithColorAndContext
          PathSample.typescriptApi PathSample.diagnostic
          {| Diagnostics.getNewLine := "; " |})
     = Some (String.length "src/a.ts:1:7 - error TS2322: ")
  /\ Diagnostics.detail
       (@Diagnostics.diagnosticToWarning PathSample.typescriptApi
          (Some {| Diagnostics.getNewLine := "; " |}) PathSample.diagnostic)
     = Some "; 1 const a: number = 'x';".
Proof.
  split; [reflexivity|]. split; [reflexivity|]. split; [reflexivity|].
  apply (@diagnosticToWarning_extracts_frame PathSample.typescriptApi
           {| Diagnostics.getNewLine := "; " |} PathSample.diagnostic
           PathSample.sourceFile "src/a.ts:1:7 - error TS2322: "
           "; 1 const a: number = 'x';"); reflexivity.
Defined.

(** * Properties of the end hook *)

Section EndHookProperties.

Context {C H : Type} {cacheOps : TSCacheOps C} {host : Host}
        {nodePath : Options.NodePath}.

Lemma writeDeclaration_cases (st : PluginState C H) eo id :
  EndHook.writeDeclaration st eo id = []
  \/ exists base data,
      data <> ""
      /\ JS.truthy (declaration (options (parsedOptions st))) = true
      /\ getEmittedFile (Some id) (emittedFiles st) (tsCache st) = Some data
      /\ EndHook.baseDirOf eo = Some base
      /\ EndHook.writeDeclaration st eo id
         = [EndHook.Mkdir
              (Options.dirname
                 (Options.pathJoin base (Options.basename id)));
            EndHook.WriteFile
              (Options.pathJoin base (Options.basename id)) data].
Proof.
  unfold EndHook.writeDeclaration. cbv zeta.
  destruct (getEmittedFile (Some id) (emittedFiles st) (tsCache st))
    as [data|] eqn:G; [|now left].
  destruct (JS.truthyString (Some data)) eqn:T; [|now left].
  destruct (JS.truthy (declaration (options (parsedOptions st)))) eqn:D;
    [|now left].
  cbn [negb orb].
  destruct (EndHook.baseDirOf eo) as [base|]; [|now left].
  destruct (JS.truthyString (Some base)); [|now left].
  right. exists base, data. repeat split; try reflexivity.
  simpl in T. apply negb_true_iff, String.eqb_neq in T. exact T.
Qed.

(** X19: the end hook writes declarations and their maps only when the
    [declaration] option itself is enabled and a target directory is known
    ([declarationDir], esbuild's [outdir] or [outfile]); otherwise its only
    possible writes are those of the build-info file. *)
Theorem onEnd_needs_declaration_and_directory
        (st : PluginState C H) (eo : EndHook.EndOptions) :
  JS.truthy (declaration (options (parsedOptions st))) = false
  \/ EndHook.baseDirOf eo = None ->
  EndHook.onEnd st eo = EndHook.writeBuildInfo st eo.
Proof.
  intro Hyp. unfold EndHook.onEnd.
  assert (E : flat_map (EndHook.writeDeclaration st eo)
                       (declarationAndTypeScriptMapFiles st) = []).
  { induction (declarationAndTypeScriptMapFiles st) as [|id ids IH];
      [reflexivity|].
    simpl. rewrite IH, app_nil_r.
    destruct (writeDeclaration_cases st eo id)
      as [E|(base & data & _ & D & _ & B & _)]; [exact E|].
    destruct Hyp; congruence. }
  now rewrite E.
Qed.

(** X20: the end hook writes no empty file and nothing of its own making:
    each write is preceded by the creation of the file's directory, and its
    data is either the content found for an enumerated declaration or map,
    written under the target directory by its base name, or the emitted
    build-info content, written at its normalized path. *)
Theorem onEnd_writes_emitted_content
        (st : PluginState C H) (eo : EndHook.EndOptions)
        (file data : string) :
  In (EndHook.WriteFile file data) (EndHook.onEnd st eo) ->
  data <> ""
  /\ (exists before after,
         EndHook.onEnd st eo
         = before ++ EndHook.Mkdir (Options.dirname file)
                  :: EndHook.WriteFile file data :: after)
  /\ ((exists id base,
          In id (declarationAndTypeScriptMapFiles st)
          /\ getEmittedFile (Some id) (emittedFiles st) (tsCache st)
             = Some data
          /\ EndHook.baseDirOf eo = Some base
          /\ file = Options.pathJoin base (Options.basename id))
      \/ (exists path,
             EndHook.tsBuildInfoPath eo = Some path
             /\ file = normalizePath path
             /\ StrMap.get path (emittedFiles st) = Some data)).
Proof.
  unfold EndHook.onEnd. rewrite in_app_iff. intros [Hd|Hb].
  - apply in_flat_map in Hd. destruct Hd as (id & Hid & Hw).
    destruct (writeDeclaration_cases st eo id)
      as [E|(base & d & N & _ & G & B & E)];
      rewrite E in Hw; [destruct Hw|].
    destruct Hw as [Hw|[Hw|[]]]; [discriminate|].
    injection Hw as <- <-. split; [exact N|]. split.
    + destruct (in_split _ _ Hid) as (l1 & l2 & ->).
      rewrite flat_map_app. cbn [flat_map]. rewrite E.
      exists (flat_map (EndHook.writeDeclaration st eo) l1).
      eexists. rewrite <- !app_assoc. cbn [app]. reflexivity.
    + left. exists id, base. auto.
  - unfold EndHook.writeBuildInfo in *.
    destruct (EndHook.tsBuildInfoPath eo) as [path|]; [|destruct Hb].
    destruct (JS.truthyString (Some path)); [|destruct Hb].
    destruct (StrMap.get path (emittedFiles st)) as [source|] eqn:G;
      [|destruct Hb].
    destruct (JS.truthyString (Some source)) eqn:T; [|destruct Hb].
    unfold EndHook.emitFile in *. cbv zeta in *.
    destruct Hb as [Hb|[Hb|[]]]; [discriminate|].
    injection Hb as <- <-. split; [|split].
    + simpl in T. apply negb_true_iff, String.eqb_neq in T. exact T.
    + eexists. exists []. reflexivity.
    + right. exists path. auto.
Qed.

End EndHookProperties.

Lemma onEnd_needs_declaration_and_directory_witness :
  (JS.truthy
     (declaration
        (options
           (parsedOptions
              (@writeFile _ _ Sample.cache "out/a.d.ts"
                 "export declare const a: number;" Sample.fresh)))) = false
   \/ @EndHook.baseDirOf PathSample.nodePath
        {| EndHook.declarationDir := None; EndHook.configPath := "/project";
           EndHook.outdir := None; EndHook.outfile := None;
           EndHook.tsBuildInfoPath := None |} = None)
  /\ @EndHook.onEnd _ _ Sample.cache Sample.host PathSample.nodePath
       (@writeFile _ _ Sample.cache "out/a.d.ts"
          "export declare const a: number;" Sample.fresh)
       {| EndHook.declarationDir := None; EndHook.configPath := "/project";
          EndHook.outdir := None; EndHook.outfile := None;
          EndHook.tsBuildInfoPath := None |}
     = @EndHook.writeBuildInfo _ _ PathSample.nodePath
         (@writeFile _ _ Sample.cache "out/a.d.ts"
            "export declare const a: number;" Sample.fresh)
         {| EndHook.declarationDir := None; EndHook.configPath := "/project";
            EndHook.outdir := None; EndHook.outfile := None;
            EndHook.tsBuildInfoPath := None |}.
Proof.
  split; [right; reflexivity|].
  apply (@onEnd_needs_declaration_and_directory _ _ Sample.cache Sample.host
           PathSample.nodePath).
  right; reflexivity.
Defined.

Lemma onEnd_writes_emitted_content_witness :
  In (EndHook.WriteFile "dist/a.d.ts" "export declare const a: number;")
     (@EndHook.onEnd _ _ Sample.cache Sample.host PathSample.nodePath
        (@writeFile _ _ Sample.cache "out/a.d.ts"
           "export declare const a: number;" Sample.fresh)
        PathSample.endOptions)
  /\ ("export declare const a: number;" <> ""
      /\ (exists before after,
             @EndHook.onEnd _ _ Sample.cache Sample.host PathSample.nodePath
               (@writeFile _ _ Sample.cache "out/a.d.ts"
                  "export declare const a: number;" Sample.fresh)
               PathSample.endOptions
             = before
               ++ EndHook.Mkdir
                    (@Options.dirname PathSample.nodePath "dist/a.d.ts")
               :: EndHook.WriteFile "dist/a.d.ts"
                    "export declare const a: number;"
               :: after)
      /\ ((exists id base,
              In id (@declarationAndTypeScriptMapFiles _ _ Sample.host
                       (@writeFile _ _ Sample.cache "out/a.d.ts"
                          "export declare const a: number;" Sample.fresh))
              /\ @getEmittedFile _ Sample.cache (Some id)
                   (emittedFiles
                      (@writeFile _ _ Sample.cache "out/a.d.ts"
                         "export declare const a: number;" Sample.fresh))
                   (tsCache
                      (@writeFile _ _ Sample.cache "out/a.d.ts"
                         "export declare const a: number;" Sample.fresh))
                 = Some "export declare const a: number;"
              /\ @EndHook.baseDirOf PathSample.nodePath PathSample.endOptions
                 = Some base
              /\ "dist/a.d.ts"
                 = @Options.pathJoin PathSample.nodePath base
                     (@Options.basename PathSample.nodePath id))
          \/ (exists path,
                 EndHook.tsBuildInfoPath PathSample.endOptions = Some path
                 /\ "dist/a.d.ts" = normalizePath path
                 /\ StrMap.get path
                      (emittedFiles
                         (@writeFile _ _ Sample.cache "out/a.d.ts"
                            "export declare const a: number;" Sample.fresh))
                    = Some "export declare const a: number;"))).
Proof.
  split; [vm_compute; tauto|].
  apply (@onEnd_writes_emitted_content _ _ Sample.cache Sample.host
           PathSample.nodePath
           (@writeFile _ _ Sample.cache "out/a.d.ts"
              "export declare const a: number;" Sample.fresh)
           PathSample.endOptions "dist/a.d.ts"
           "export declare const a: number;").
  vm_compute; tauto.
Defined.

(** * The disk cache under the hooks *)

Section CacheProperties.

Context {C H : Type} {cacheOps : TSCacheOps C} {helperOps : WatchHelperOps H}
        {host : Host}.

Lemma hook_keeps_cache h (st : PluginState C H) :
  JS.truthy (composite (options (parsedOptions st))) = false ->
  JS.truthy (incremental (options (parsedOptions st))) = false ->
  tsCache (hook h st) = tsCache st.
Proof.
  intros Co In. destruct h; simpl; try reflexivity.
  - apply onStart_stores.
  - unfold onLoad. destruct (negb (filter path)); reflexivity.
  - unfold onDispose. destruct (program st); reflexivity.
  - unfold writeFile; simpl. now rewrite Co, In.
  - apply report_tsCache.
Qed.

(** X21: when neither [composite] nor [incremental] is enabled, no sequence
    of callbacks ever writes to the disk cache. *)
Theorem cache_untouched_without_incremental (hs : list Hook) :
  forall st : PluginState C H,
    JS.truthy (composite (options (parsedOptions st))) = false ->
    JS.truthy (incremental (options (parsedOptions st))) = false ->
    tsCache (hooks hs st) = tsCache st.
Proof.
  unfold hooks. induction hs as [|h hs IH]; intros st Co In; simpl.
  - reflexivity.
  - rewrite IH.
    + now apply hook_keeps_cache.
    + now rewrite hook_options.
    + now rewrite hook_options.
Qed.

End CacheProperties.

Lemma cache_untouched_without_incremental_witness :
  JS.truthy (composite (options (parsedOptions Sample.fresh))) = false
  /\ JS.truthy (incremental (options (parsedOptions Sample.fresh))) = false
  /\ tsCache (@hooks _ _ Sample.cache _ Sample.host
                [HStart Sample.build; HWriteFile "src/a.js" "let a = 1;";
                 HLoad "src/a.ts"; HEnd]
                Sample.fresh)
     = tsCache Sample.fresh.
Proof.
  split; [reflexivity|]. split; [reflexivity|].
  apply (@cache_untouched_without_incremental _ _ Sample.cache _ Sample.host
           [HStart Sample.build; HWriteFile "src/a.js" "let a = 1;";
            HLoad "src/a.ts"; HEnd]
           Sample.fresh); reflexivity.
Defined.

(** * The file list while loads wait *)

Section SessionFileList.

Context {C : Type} {cacheOps : TSCacheOps C} {host : Host}.

Local Abbreviation Session := (PluginState C WatchCoordinator).

Ltac calc := cbn -[onLoad_resume].

Lemma resumeAll_fileNames paths : forall (st : Session) (name : string),
  In name (fileNames (parsedOptions (fst (resumeAll paths st))))
  <-> In name (fileNames (parsedOptions st))
      \/ In name (List.map normalizePath paths).
Proof.
  induction paths as [|p paths IH]; intros st name; calc.
  - tauto.
  - pose proof (onLoad_resume_fileNames p st) as E.
    destruct (onLoad_resume p st) as [r st1]. cbn [snd] in E.
    specialize (IH st1 name).
    destruct (resumeAll paths st1) as [st2 rs]. cbn [fst] in *.
    rewrite IH, E.
    destruct (JS.includes _ _) eqn:I.
    + apply includes_In in I. split; [tauto|].
      intros [Hin|[<-|Hin]]; auto.
    + rewrite in_app_iff. simpl. tauto.
Qed.

(** Every waiting request is for a path the filter accepted. *)
Lemma step_keeps_pending_filtered h (st : Session) :
  forallb filter (pending (watchProgramHelper st)) = true ->
  forallb filter (pending (watchProgramHelper (fst (step h st)))) = true.
Proof.
  intro I. destruct h; calc.
  - now rewrite onStart_helper_pending.
  - destruct (filter path) eqn:F; calc; [|exact I].
    unfold Coordinator.wait.
    destruct (coordinatorState (watchProgramHelper st)); calc.
    + destruct (onLoad_resume_frame path st) as (E & _).
      destruct (onLoad_resume path st). cbn [snd fst] in *. now rewrite E.
    + rewrite forallb_app, I. calc. now rewrite F.
  - exact I.
  - now rewrite onDispose_helper.
  - exact I.
  - destruct diagnostic; calc; try exact I;
      match goal with
      | |- context [resumeAll ?ps ?s] =>
          destruct (resumeAll_frame ps s) as (E & _); rewrite E
      end; reflexivity.
  - now rewrite report_helper.
Qed.

Lemma step_fileNames_members h (st : Session) (name : string) :
  forallb filter (pending (watchProgramHelper st)) = true ->
  In name (fileNames (parsedOptions (fst (step h st))))
  <-> In name (fileNames (parsedOptions st))
      \/ exists r,
          In r (snd (step h st)) /\ filter (resolvedPath r) = true
          /\ name = normalizePath (resolvedPath r).
Proof.
  intro I.
  assert (Quiet : forall s : Session,
             fileNames (parsedOptions s) = fileNames (parsedOptions st) ->
             In name (fileNames (parsedOptions s))
             <-> In name (fileNames (parsedOptions st))
                 \/ exists r : Resolution,
                     In r [] /\ filter (resolvedPath r) = true
                     /\ name = normalizePath (resolvedPath r)).
  { intros s ->. split; [auto|]. intros [Hin|(r & [] & _)]. exact Hin. }
  destruct h; calc.
  - apply Quiet. now rewrite onStart_parsedOptions.
  - destruct (filter path) eqn:F; calc.
    + unfold Coordinator.wait.
      destruct (coordinatorState (watchProgramHelper st)); calc.
      * pose proof (onLoad_resume_fileNames path st) as E.
        destruct (onLoad_resume path st) as [r st1]. cbn [snd fst] in *.
        rewrite E. destruct (JS.includes _ _) eqn:Inc.
        -- apply includes_In in Inc. split; [auto|].
           intros [Hin|(x & [<-|[]] & _ & ->)]; [exact Hin | exact Inc].
        -- rewrite in_app_iff. simpl. split.
           ++ intros [Hin|[<-|[]]]; [auto|]. right.
              eexists. split; [left; reflexivity|]. auto.
           ++ intros [Hin|(x & [<-|[]] & _ & ->)]; auto.
      * apply Quiet. reflexivity.
    + split; [auto|].
      intros [Hin|(x & [<-|[]] & Fx & _)]; [exact Hin|].
      cbn in Fx. congruence.
  - apply Quiet. reflexivity.
  - apply Quiet. unfold onDispose. destruct (program st); reflexivity.
  - apply Quiet. reflexivity.
  - assert (Drain : forall c : WatchCoordinator,
               In name
                  (fileNames
                     (parsedOptions
                        (fst (resumeAll (pending (watchProgramHelper st))
                                        (setHelper c st)))))
               <-> In name (fileNames (parsedOptions st))
                   \/ exists r,
                       In r (snd (resumeAll (pending (watchProgramHelper st))
                                            (setHelper c st)))
                       /\ filter (resolvedPath r) = true
                       /\ name = normalizePath (resolvedPath r)).
    { intro c. rewrite resumeAll_fileNames. cbn [setHelper parsedOptions].
      pose proof (resumeAll_paths (pending (watchProgramHelper st))
                                  (setHelper c st)) as P.
      split.
      - intros [Hin|Hin]; [auto|]. right.
        apply in_map_iff in Hin. destruct Hin as (q & <- & Hq).
        assert (Fq : filter q = true).
        { rewrite forallb_forall in I. now apply I. }
        rewrite <- P in Hq. apply in_map_iff in Hq.
        destruct Hq as (r & <- & Hr). exists r. auto.
      - intros [Hin|(r & Hr & _ & ->)]; [auto|]. right.
        apply in_map. rewrite <- P. now apply in_map. }
    destruct diagnostic; calc; try apply Drain.
    + apply Quiet. reflexivity.
    + destruct st; apply Quiet; reflexivity.
  - apply Quiet. now rewrite report_parsedOptions.
Qed.

Lemma run_fileNames_members hs : forall (st : Session) (name : string),
  forallb filter (pending (watchProgramHelper st)) = true ->
  In name (fileNames (parsedOptions (fst (run hs st))))
  <-> In name (fileNames (parsedOptions st))
      \/ exists r,
          In r (snd (run hs st)) /\ filter (resolvedPath r) = true
          /\ name = normalizePath (resolvedPath r).
Proof.
  induction hs as [|h hs IH]; intros st name I; calc.
  - split; [auto|]. intros [Hin|(r & [] & _)]. exact Hin.
  - pose proof (step_fileNames_members h st name I) as S1.
    pose proof (step_keeps_pending_filtered h st I) as I1.
    destruct (step h st) as [st1 out1]. cbn [fst snd] in *.
    specialize (IH st1 name I1).
    destruct (run hs st1) as [st2 out2]. cbn [fst snd] in *.
    rewrite IH, S1. split.
    + intros [[Hin|(r & Hr & F & E)]|(r & Hr & F & E)]; auto;
        right; exists r; rewrite in_app_iff; auto.
    + intros [Hin|(r & Hr & F & E)]; auto.
      apply in_app_iff in Hr. destruct Hr as [Hr|Hr]; eauto 7.
Qed.

(** X12: while loads may wait for the compiler, the file list consists at
    any time of exactly the configured file names that pass the inclusion
    filter and the normalized paths of the loads that passed the filter
    and have been resumed; a load that is still waiting has added nothing
    yet. *)
Theorem fileNames_are_included_or_resolved
        (parsed : ParsedCommandLine) (cache : C) (hs : list Hook)
        (name : string) :
  In name (fileNames
             (parsedOptions
                (fst (run hs (typescript parsed cache Coordinator.create)))))
  <-> (In name (fileNames parsed) /\ filter name = true)
      \/ exists r,
          In r (snd (run hs (typescript parsed cache Coordinator.create)))
          /\ filter (resolvedPath r) = true
          /\ name = normalizePath (resolvedPath r).
Proof.
  rewrite run_fileNames_members by reflexivity.
  unfold typescript; simpl. rewrite filter_In. reflexivity.
Qed.

End SessionFileList.
